(** * Exam evaluation frontend: forms, wizard, API cache tags, submission page

    A shallow embedding of the TypeScript sources of the exam frontend:
    - the zod schemas of the creation form (ExamCreation.tsx) and of the edit
      form (ExamEditForm.tsx), together with the react-hook-form operations
      the two wizards call ([trigger], [handleSubmit], the field array);
    - the three-step wizards ([handleNext], [handleBack], the buttons);
    - the RTK Query endpoints of examApi.ts with their cache tags;
    - the detail and edit pages ([skip: !id]) and what they and the exam
      list render;
    - the PDF submission page;
    - the creation wizard with local state and the dashboard's progress bar.

    Numbers.  A JavaScript number is a double; [Js.number] holds the integers
    and NaN, which is where the ids and marks of the statements on [Js]
    live.  On that domain [Js.StringToNumber] follows ECMAScript: white space
    is trimmed, the empty string is 0, an optionally signed run of decimal
    digits is its value, and text that is no numeric literal is NaN; the
    integers are exact up to 2^53 in absolute value, as the doubles are.
    Literals with a fraction, an exponent, a radix prefix or Infinity, and
    integers beyond 2^53, lie outside it.  Whatever is stated for every
    route parameter or for every schema is therefore stated over
    JavaScript's own operations, taken as parameters ([Pages], and the
    wizard over the schema it is given), and [Js] serves as the instance on
    integers. *)

From Stdlib Require Import ZArith List String Ascii Bool Lia DecimalString.
From Stdlib Require DecimalPos DecimalZ.
Import ListNotations.
Local Open Scope string_scope.
Local Open Scope list_scope.
Local Open Scope Z_scope.

(* ===================================================================== *)
(** ** JavaScript values and the coercions the sources use *)
(* ===================================================================== *)

Module Js.

(** The integers and NaN among JavaScript's numbers.  Fractions, the
    infinities and the rounding of integers beyond 2^53 are not modelled. *)
Inductive number : Type :=
| Num (z : Z)
| NaN.

Inductive value : Type :=
| VUndefined
| VNull
| VBool (b : bool)
| VNumber (n : number)
| VString (s : string).

(** [isNaN(num)] for a value that is already a number. *)
Definition isNaN (n : number) : bool :=
  match n with NaN => true | Num _ => false end.

(** [num >= k]: every comparison with NaN is false. *)
Definition geb (n : number) (k : Z) : bool :=
  match n with Num z => k <=? z | NaN => false end.

(** [!n] for a number: NaN and 0 are the falsy numbers. *)
Definition not_number (n : number) : bool :=
  match n with
  | NaN => true
  | Num z => z =? 0
  end.

(** White space of a byte string: space, and tab to carriage return. *)
Definition is_whitespace (c : ascii) : bool :=
  let n := nat_of_ascii c in
  (Nat.eqb n 32 || (Nat.leb 9 n && Nat.leb n 13))%bool.

Fixpoint trim_start (l : list ascii) : list ascii :=
  match l with
  | c :: r => if is_whitespace c then trim_start r else l
  | [] => []
  end.

Definition trim (l : list ascii) : list ascii :=
  rev (trim_start (rev (trim_start l))).

Definition digit_of (c : ascii) : option Z :=
  let n := nat_of_ascii c in
  if (Nat.leb 48 n && Nat.leb n 57)%bool then Some (Z.of_nat n - 48) else None.

(** Value of a run of decimal digits read after the prefix [acc]; [None] as
    soon as a character is no digit. *)
Fixpoint digits_from (acc : Z) (l : list ascii) : option Z :=
  match l with
  | [] => Some acc
  | c :: r =>
      match digit_of c with
      | Some d => digits_from (10 * acc + d) r
      | None => None
      end
  end.

Definition unsigned_literal (l : list ascii) : number :=
  match l with
  | [] => NaN
  | _ => match digits_from 0 l with Some z => Num z | None => NaN end
  end.

Definition negate (n : number) : number :=
  match n with Num z => Num (- z) | NaN => NaN end.

(** [Number(s)] for text that, once trimmed, is empty, is an optionally
    signed run of decimal digits (of a value up to 2^53), or is no numeric
    literal at all.  The other numeric literals (fraction, exponent, radix
    prefix, Infinity) denote numbers [number] does not hold. *)
Definition StringToNumber (s : string) : number :=
  match trim (list_ascii_of_string s) with
  | [] => Num 0
  | c :: r =>
      if Ascii.eqb c "+" then unsigned_literal r
      else if Ascii.eqb c "-" then negate (unsigned_literal r)
      else unsigned_literal (c :: r)
  end.

(** [Number(val)]. *)
Definition Number (v : value) : number :=
  match v with
  | VUndefined => NaN
  | VNull => Num 0
  | VBool true => Num 1
  | VBool false => Num 0
  | VNumber n => n
  | VString s => StringToNumber s
  end.

(** [`${n}`] for NaN and for an integer below 10^21 in absolute value, from
    where on JavaScript switches to the exponent notation. *)
Definition number_to_string (n : number) : string :=
  match n with
  | Num z => NilZero.string_of_int (Z.to_int z)
  | NaN => "NaN"
  end.

End Js.

(** The double-quote character used inside message texts. *)
Definition dquote : string := String "034"%char EmptyString.

(* ===================================================================== *)
(** ** lib/types.ts *)
(* ===================================================================== *)

Module Question.

Record t : Type := mk {
  id : option Js.number;          (* optional for new questions *)
  text : string;
  ideal_answer : string;
  instructions : option string;
  mark : Js.number;
  created_at : option string;
  updated_at : option string
}.

End Question.

Module Exam.

Record t : Type := mk {
  id : Js.number;
  title : string;
  subject : string;
  instructions : string;
  questions : list Question.t;
  created_at : string;
  updated_at : string
}.

End Exam.

(* ===================================================================== *)
(** ** Form values and schema output *)
(* ===================================================================== *)

(** One entry of the [questions] field array as the form holds it.  The
    schemas read [mark] with [z.any()], and the number input writes text into
    it, so it is an arbitrary value here.  An entry loaded from a fetched exam
    also carries the keys [id], [created_at] and [updated_at]; the keys that
    [useFieldArray] generates live in its [fields] only, not in the values. *)
Module FormQuestion.

Record t : Type := mk {
  id : option Js.number;
  text : string;
  ideal_answer : string;
  instructions : option string;
  mark : Js.value;
  created_at : option string;
  updated_at : option string
}.

End FormQuestion.

Module FormValues.

Record t : Type := mk {
  title : string;
  subject : string;
  instructions : string;
  questions : list FormQuestion.t
}.

End FormValues.

(** [z.infer<typeof examFormSchema>]: what a successful parse returns.  A zod
    object keeps the declared keys only; the creation schema declares no [id],
    so its questions come out with [id] absent. *)
Module QuestionData.

Record t : Type := mk {
  id : option Js.number;
  text : string;
  ideal_answer : string;
  instructions : option string;
  mark : Js.number
}.

End QuestionData.

Module ExamFormData.

Record t : Type := mk {
  title : string;
  subject : string;
  instructions : string;
  questions : list QuestionData.t
}.

End ExamFormData.

(* ===================================================================== *)
(** ** zod: the combinators the two schemas are built from *)
(* ===================================================================== *)

Module Zod.

Inductive PathSeg : Type :=
| Key (k : string)
| Idx (i : nat).

Definition Path := list PathSeg.

Record ZodIssue : Type := mkIssue {
  path : Path;
  message : string
}.

Definition seg_eqb (a b : PathSeg) : bool :=
  match a, b with
  | Key x, Key y => String.eqb x y
  | Idx i, Idx j => Nat.eqb i j
  | _, _ => false
  end.

Fixpoint path_eqb (p q : Path) : bool :=
  match p, q with
  | [], [] => true
  | a :: p', b :: q' => seg_eqb a b && path_eqb p' q'
  | _, _ => false
  end.

(** [p] leads to [q] or to something above it. *)
Fixpoint path_prefix (p q : Path) : bool :=
  match p, q with
  | [], _ => true
  | a :: p', b :: q' => seg_eqb a b && path_prefix p' q'
  | _ :: _, [] => false
  end.

(** A parser reports its issues and the data it would return; the data count
    only when the whole parse reported nothing. *)
Definition Parser (I O : Type) : Type := Path -> I -> list ZodIssue * O.

(** [z.string().min(n, msg)] on a string. *)
Definition string_min (n : nat) (msg : string) : Parser string string :=
  fun p s => (if Nat.ltb (String.length s) n then [mkIssue p msg] else [], s).

(** [z.string().optional()] on a string or an absent key. *)
Definition string_optional : Parser (option string) (option string) :=
  fun _ s => ([], s).

(** [z.number().optional()]: a number that is NaN is an invalid type. *)
Definition number_optional : Parser (option Js.number) (option Js.number) :=
  fun p n =>
    match n with
    | Some Js.NaN => ([mkIssue p "Expected number, received nan"], n)
    | _ => ([], n)
    end.

(** [z.any()]. *)
Definition any : Parser Js.value Js.value :=
  fun _ v => ([], v).

(** [schema.refine(check, { message })]. *)
Definition refine {I O : Type} (inner : Parser I O) (check : O -> bool)
    (msg : string) : Parser I O :=
  fun p v =>
    let '(issues, out) := inner p v in
    (issues ++ (if check out then [] else [mkIssue p msg]), out).

(** [schema.transform(f)]. *)
Definition transform {I O O' : Type} (inner : Parser I O) (f : O -> O')
    : Parser I O' :=
  fun p v => let '(issues, out) := inner p v in (issues, f out).

Fixpoint parse_items {I O : Type} (elem : Parser I O) (p : Path) (i : nat)
    (l : list I) : list ZodIssue * list O :=
  match l with
  | [] => ([], [])
  | x :: r =>
      let '(ix, ox) := elem (p ++ [Idx i]) x in
      let '(ir, outr) := parse_items elem p (S i) r in
      (ix ++ ir, ox :: outr)
  end.

(** [z.array(elem).min(n, msg)]: the length issue sits on the array itself and
    comes before the issues of the items. *)
Definition array_min {I O : Type} (elem : Parser I O) (n : nat) (msg : string)
    : Parser (list I) (list O) :=
  fun p l =>
    let '(issues, out) := parse_items elem p 0 l in
    ((if Nat.ltb (List.length l) n then [mkIssue p msg] else []) ++ issues, out).

(** [schema.safeParse(values)]. *)
Definition safeParse {I O : Type} (schema : Parser I O) (v : I)
    : list ZodIssue + O :=
  match schema [] v with
  | ([], out) => inr out
  | (issues, _) => inl issues
  end.

End Zod.

Import Zod.

(* ===================================================================== *)
(** ** lib/redux/api: apiSlice.ts, examApi.ts, submissionApi *)
(* ===================================================================== *)

Module File.
(** The two properties of a DOM [File] the pages read. *)
Record t : Type := mk {
  name : string;
  type : string
}.

End File.

Module ExamApi.

(** [tagTypes] of [apiSlice]. *)
Definition tagTypes : list string := ["FileUpload"].

Inductive TagId : Type :=
| IdNumber (n : Js.number)
| IdString (s : string).

Record Tag : Type := mkTag {
  type : string;
  id : option TagId
}.

(** An entry of [invalidatesTags] or [providesTags]: a bare type name or an
    object [{ type, id }]. *)
Inductive TagDescription : Type :=
| TagType (t : string)
| TagObject (t : Tag).

Definition expandTagDescription (d : TagDescription) : Tag :=
  match d with
  | TagType t => mkTag t None
  | TagObject t => t
  end.

Inductive Method : Type := GET | POST | PUT | DELETE.

Definition FormData : Type := list (string * File.t).

Inductive Body : Type :=
| NoBody
| ExamBody (examData : ExamFormData.t)
| FormDataBody (formData : FormData).

Record FetchArgs : Type := mkFetch {
  url : string;
  method : Method;
  body : Body
}.

Module createExam.

Definition query (examData : ExamFormData.t) : FetchArgs :=
  mkFetch "/core/exams/create/" POST (ExamBody examData).

Definition invalidatesTags : list TagDescription := [TagType "Exam"].

End createExam.

Module getExams.

Definition query : FetchArgs := mkFetch "/core/exams/" GET NoBody.

Definition providesTags (result : option (list Exam.t)) : list TagDescription :=
  match result with
  | Some exams =>
      map (fun e => TagObject (mkTag "Exam" (Some (IdNumber (Exam.id e))))) exams
      ++ [TagObject (mkTag "Exam" (Some (IdString "LIST")))]
  | None => [TagObject (mkTag "Exam" (Some (IdString "LIST")))]
  end.

End getExams.

Module getExamById.

Definition query (id : Js.number) : FetchArgs :=
  mkFetch ("/core/exams/" ++ Js.number_to_string id ++ "/")%string GET NoBody.

Definition providesTags (id : Js.number) : list TagDescription :=
  [TagObject (mkTag "Exam" (Some (IdNumber id)))].

End getExamById.

Module updateExam.

Definition query (id : Js.number) (examData : ExamFormData.t) : FetchArgs :=
  mkFetch ("/core/exams/" ++ Js.number_to_string id ++ "/")%string PUT
          (ExamBody examData).

(* Invalidate the specific exam cache and the list cache *)
Definition invalidatesTags (id : Js.number) : list TagDescription :=
  [ TagObject (mkTag "Exam" (Some (IdNumber id)));
    TagObject (mkTag "Exam" (Some (IdString "LIST"))) ].

End updateExam.

Module deleteExam.

Definition query (id : Js.number) : FetchArgs :=
  mkFetch ("/core/exams/" ++ Js.number_to_string id ++ "/")%string DELETE NoBody.

Definition invalidatesTags (id : Js.number) : list TagDescription :=
  [ TagObject (mkTag "Exam" (Some (IdString "LIST"))) ].

End deleteExam.

Module uploadPdf.

Definition query (formData : FormData) : FetchArgs :=
  mkFetch "/core/upload/" POST (FormDataBody formData).

Definition invalidatesTags : list TagDescription := [TagType "FileUpload"].

End uploadPdf.

(** The mutations a component can start, with their arguments. *)
Inductive Mutation : Type :=
| CreateExam (examData : ExamFormData.t)
| UpdateExam (id : Js.number) (examData : ExamFormData.t)
| DeleteExam (id : Js.number)
| UploadPdf (formData : FormData).

Definition mutation_query (m : Mutation) : FetchArgs :=
  match m with
  | CreateExam d => createExam.query d
  | UpdateExam i d => updateExam.query i d
  | DeleteExam i => deleteExam.query i
  | UploadPdf fd => uploadPdf.query fd
  end.

Definition mutation_invalidatesTags (m : Mutation) : list Tag :=
  map expandTagDescription
    match m with
    | CreateExam _ => createExam.invalidatesTags
    | UpdateExam i _ => updateExam.invalidatesTags i
    | DeleteExam i => deleteExam.invalidatesTags i
    | UploadPdf _ => uploadPdf.invalidatesTags
    end.

(** The queries whose results the cache stores. *)
Inductive Query : Type :=
| GetExams
| GetExamById (id : Js.number).

Definition query_providesTags (q : Query) (result : option (list Exam.t))
    : list Tag :=
  map expandTagDescription
    match q with
    | GetExams => getExams.providesTags result
    | GetExamById i => getExamById.providesTags i
    end.

(** *** Tag matching, as RTK Query documents it

    The store keeps, per tag type and per id, the cache entries that provide
    the tag.  An invalidating tag without id reaches every entry of its type;
    one with an id reaches the entries filed under that id.  Ids are object
    keys, so a number and its decimal text are the same id. *)
Definition tag_id_key (i : TagId) : string :=
  match i with
  | IdNumber n => Js.number_to_string n
  | IdString s => s
  end.

Definition tag_matches (invalidating provided : Tag) : bool :=
  String.eqb (type invalidating) (type provided)
  && match id invalidating with
     | None => true
     | Some i =>
         match id provided with
         | Some j => String.eqb (tag_id_key i) (tag_id_key j)
         | None => false
         end
     end.

Record CacheEntry : Type := mkEntry {
  entry_query : Query;
  entry_result : option (list Exam.t)
}.

Definition entry_tags (e : CacheEntry) : list Tag :=
  query_providesTags (entry_query e) (entry_result e).

Definition covers (invalidating : list Tag) (t : Tag) : bool :=
  existsb (fun i => tag_matches i t) invalidating.

Definition is_invalidated (invalidating : list Tag) (e : CacheEntry) : bool :=
  existsb (covers invalidating) (entry_tags e).

(** After a fulfilled mutation, the entries to refetch and the entries left
    as they are. *)
Definition refetched (m : Mutation) (cache : list CacheEntry) : list CacheEntry :=
  filter (is_invalidated (mutation_invalidatesTags m)) cache.

Definition untouched (m : Mutation) (cache : list CacheEntry) : list CacheEntry :=
  filter (fun e => negb (is_invalidated (mutation_invalidatesTags m) e)) cache.

End ExamApi.

(* ===================================================================== *)
(** ** react-hook-form with the zod resolver *)
(* ===================================================================== *)

Module Rhf.

(** [formState.errors]: the issues of the last validation, found by path. *)
Definition FieldErrors : Type := list ZodIssue.

Definition Schema : Type := Parser FormValues.t ExamFormData.t.

(** [zodResolver(schema)]: the errors, and the parsed values when there are
    none. *)
Definition resolver (schema : Schema) (values : FormValues.t)
    : FieldErrors * option ExamFormData.t :=
  match safeParse schema values with
  | inl issues => (issues, None)
  | inr data => ([], Some data)
  end.

(** [get(errors, name)]: whatever the errors hold at or below [name]. *)
Definition get (errors : FieldErrors) (name : Path) : option ZodIssue :=
  find (fun i => path_prefix name (path i)) errors.

(** [errors.<path>.message], the text a step component renders under a
    field (for the array itself: [errors.questions.root.message]). *)
Definition field_message (errors : FieldErrors) (p : Path) : option string :=
  option_map message (find (fun i => path_eqb (path i) p) errors).

Definition below_any (names : list Path) (p : Path) : bool :=
  existsb (fun n => path_prefix n p) names.

Definition is_some {A : Type} (o : option A) : bool :=
  match o with Some _ => true | None => false end.

Definition is_empty {A : Type} (l : list A) : bool :=
  match l with [] => true | _ => false end.

(** [trigger(names)]: the whole form goes through the resolver.  With names,
    the errors of those fields are replaced, the other errors stay, and the
    answer is whether the named fields are free of errors; without names all
    errors are replaced and the answer is whether there are none. *)
Definition trigger (schema : Schema) (names : option (list Path))
    (values : FormValues.t) (errors : FieldErrors) : bool * FieldErrors :=
  let found := fst (resolver schema values) in
  match names with
  | Some ns =>
      (negb (existsb (fun n => is_some (get found n)) ns),
       filter (fun i => negb (below_any ns (path i))) errors
       ++ filter (fun i => below_any ns (path i)) found)
  | None => (is_empty found, found)
  end.

(** [handleSubmit(onValid)]: validate everything, store the errors, and hand
    the parsed data to [onValid] only when there are none. *)
Definition handleSubmit (schema : Schema) (values : FormValues.t)
    : FieldErrors * option ExamFormData.t :=
  resolver schema values.

(** [useFieldArray]: [append] and [remove]. *)
Definition append (q : FormQuestion.t) (v : FormValues.t) : FormValues.t :=
  FormValues.mk (FormValues.title v) (FormValues.subject v)
    (FormValues.instructions v) (FormValues.questions v ++ [q]).

Definition remove_at {A : Type} (index : nat) (l : list A) : list A :=
  firstn index l ++ skipn (S index) l.

Definition remove (index : nat) (v : FormValues.t) : FormValues.t :=
  FormValues.mk (FormValues.title v) (FormValues.subject v)
    (FormValues.instructions v) (remove_at index (FormValues.questions v)).

(** Writing one registered question input. *)
Fixpoint update_at {A : Type} (index : nat) (f : A -> A) (l : list A) : list A :=
  match l, index with
  | [], _ => []
  | x :: r, O => f x :: r
  | x :: r, S k => x :: update_at k f r
  end.

Definition set_question (index : nat) (f : FormQuestion.t -> FormQuestion.t)
    (v : FormValues.t) : FormValues.t :=
  FormValues.mk (FormValues.title v) (FormValues.subject v)
    (FormValues.instructions v) (update_at index f (FormValues.questions v)).

End Rhf.

(* ===================================================================== *)
(** ** The three-step wizard shared by ExamCreation and ExamEditForm *)
(* ===================================================================== *)

Module Wizard.

Record State : Type := mkState {
  step : Z;
  values : FormValues.t;
  errors : Rhf.FieldErrors
}.

(** What the user can do on the rendered form. *)
Inductive Event : Type :=
| ClickNext
| ClickBack
| ClickCancel
| SubmitForm
| ChangeTitle (s : string)
| ChangeSubject (s : string)
| ChangeInstructions (s : string)
| ChangeQuestionText (index : nat) (s : string)
| ChangeIdealAnswer (index : nat) (s : string)
| ChangeMark (index : nat) (s : string)
| ClickAddQuestion
| ClickRemove (index : nat).

Section WithSchema.

Variable examFormSchema : Rhf.Schema.

Definition step1_fields : list Path :=
  [[Key "title"]; [Key "subject"]; [Key "instructions"]].

Definition handleNext (st : State) : State :=
  let '(isValid, errs) :=
    Rhf.trigger examFormSchema
      (if step st =? 1 then Some step1_fields else None)
      (values st) (errors st) in
  mkState (if isValid then step st + 1 else step st) (values st) errs.

Definition handleBack (st : State) : State :=
  mkState (step st - 1) (values st) (errors st).

(** The form's [onSubmit]: the state it leaves and the data passed on. *)
Definition submit (st : State) : State * option ExamFormData.t :=
  let '(errs, data) := Rhf.handleSubmit examFormSchema (values st) in
  (mkState (step st) (values st) errs, data).

(** Which control is rendered: Back only when [step > 1] (Cancel otherwise),
    Next only when [step < 3]; the inputs of a step only on that step.  The
    submit handler hangs on the form element itself. *)
Definition enabled (st : State) (e : Event) : bool :=
  match e with
  | ClickNext => step st <? 3
  | ClickBack => 1 <? step st
  | ClickCancel => negb (1 <? step st)
  | SubmitForm => true
  | ChangeTitle _ | ChangeSubject _ | ChangeInstructions _ => step st =? 1
  | ChangeQuestionText i _ | ChangeIdealAnswer i _ | ChangeMark i _
  | ClickRemove i =>
      (step st =? 2)
      && Nat.ltb i (List.length (FormValues.questions (values st)))
  | ClickAddQuestion => step st =? 2
  end.

(** The values after an input event. *)
Definition edit (e : Event) (v : FormValues.t) : FormValues.t :=
  match e with
  | ChangeTitle s =>
      FormValues.mk s (FormValues.subject v) (FormValues.instructions v)
        (FormValues.questions v)
  | ChangeSubject s =>
      FormValues.mk (FormValues.title v) s (FormValues.instructions v)
        (FormValues.questions v)
  | ChangeInstructions s =>
      FormValues.mk (FormValues.title v) (FormValues.subject v) s
        (FormValues.questions v)
  | ChangeQuestionText i s =>
      Rhf.set_question i (fun q =>
        FormQuestion.mk (FormQuestion.id q) s (FormQuestion.ideal_answer q)
          (FormQuestion.instructions q) (FormQuestion.mark q)
          (FormQuestion.created_at q) (FormQuestion.updated_at q)) v
  | ChangeIdealAnswer i s =>
      Rhf.set_question i (fun q =>
        FormQuestion.mk (FormQuestion.id q) (FormQuestion.text q) s
          (FormQuestion.instructions q) (FormQuestion.mark q)
          (FormQuestion.created_at q) (FormQuestion.updated_at q)) v
  | ChangeMark i s =>
      Rhf.set_question i (fun q =>
        FormQuestion.mk (FormQuestion.id q) (FormQuestion.text q)
          (FormQuestion.ideal_answer q) (FormQuestion.instructions q)
          (Js.VString s)
          (FormQuestion.created_at q) (FormQuestion.updated_at q)) v
  | ClickAddQuestion =>
      Rhf.append
        (FormQuestion.mk None "" "" (Some "") (Js.VNumber (Js.Num 10)) None None) v
  | ClickRemove i => Rhf.remove i v
  | ClickNext | ClickBack | ClickCancel | SubmitForm => v
  end.

(** One event on the rendered form, handled to completion before the next
    one.  An input event writes the values; the messages shown under the
    fields may be refreshed by it (re-validation after a submit attempt), so
    they are left open there. *)
Inductive transition : State -> Event -> State -> Prop :=
| t_next st :
    enabled st ClickNext = true ->
    transition st ClickNext (handleNext st)
| t_back st :
    enabled st ClickBack = true ->
    transition st ClickBack (handleBack st)
| t_cancel st :
    enabled st ClickCancel = true ->
    transition st ClickCancel st
| t_submit st :
    transition st SubmitForm (fst (submit st))
| t_edit st e errs :
    enabled st e = true ->
    match e with
    | ClickNext | ClickBack | ClickCancel | SubmitForm => False
    | _ => True
    end ->
    transition st e (mkState (step st) (edit e (values st)) errs).

Inductive reachable (init : State) : State -> Prop :=
| r_init : reachable init init
| r_step st e st' :
    reachable init st -> transition st e st' -> reachable init st'.

End WithSchema.

End Wizard.

(** What a form's [onSubmit] does besides validating. *)
Inductive SubmitEffect : Type :=
| Start (m : ExamApi.Mutation)
| Completed
| ConsoleError (text : string).

(* ===================================================================== *)
(** ** components/ExamCreation.tsx (schema-driven creation form) *)
(* ===================================================================== *)

Module ExamCreation.

(** The check handed to [refine] on [mark]. *)
Definition mark_check (val : Js.value) : bool :=
  let num := Js.Number val in
  negb (Js.isNaN num) && Js.geb num 1.

Definition questionSchema : Parser FormQuestion.t QuestionData.t :=
  fun p q =>
    let '(i_text, text) :=
      string_min 1 "Question text is required" (p ++ [Key "text"])
        (FormQuestion.text q) in
    let '(i_answer, ideal_answer) :=
      string_min 1 "Ideal answer is required" (p ++ [Key "ideal_answer"])
        (FormQuestion.ideal_answer q) in
    let '(i_instr, instructions) :=
      string_optional (p ++ [Key "instructions"]) (FormQuestion.instructions q) in
    let '(i_mark, mark) :=
      transform
        (refine any mark_check "Mark must be a number and at least 1")
        Js.Number
        (p ++ [Key "mark"]) (FormQuestion.mark q) in
    (i_text ++ i_answer ++ i_instr ++ i_mark,
     QuestionData.mk None text ideal_answer instructions mark).

(** A single, unified schema for the entire form. *)
Definition examFormSchema : Rhf.Schema :=
  fun p v =>
    let '(i_title, title) :=
      string_min 1 "Title is required" (p ++ [Key "title"]) (FormValues.title v) in
    let '(i_subject, subject) :=
      string_min 1 "Subject is required" (p ++ [Key "subject"])
        (FormValues.subject v) in
    let '(i_instr, instructions) :=
      string_min 1 "Instructions are required" (p ++ [Key "instructions"])
        (FormValues.instructions v) in
    let '(i_questions, questions) :=
      array_min questionSchema 1 "You must add at least one question."
        (p ++ [Key "questions"]) (FormValues.questions v) in
    (i_title ++ i_subject ++ i_instr ++ i_questions,
     ExamFormData.mk title subject instructions questions).

Definition defaultValues : FormValues.t :=
  FormValues.mk "" "" ""
    [FormQuestion.mk None "" "" (Some "") (Js.VNumber (Js.Num 10)) None None].

Definition initial : Wizard.State := Wizard.mkState 1 defaultValues [].

Definition handleNext := Wizard.handleNext examFormSchema.

Definition handleBack := Wizard.handleBack.

Definition onSubmit (data : ExamFormData.t) (fulfilled : bool) : list SubmitEffect :=
  Start (ExamApi.CreateExam data)
  :: (if fulfilled then [Completed] else [ConsoleError "Failed to create exam:"]).

(** Submitting the form in state [st]. *)
Definition submit_form (st : Wizard.State) (fulfilled : bool) : list SubmitEffect :=
  match snd (Wizard.submit examFormSchema st) with
  | Some data => onSubmit data fulfilled
  | None => []
  end.

End ExamCreation.

(* ===================================================================== *)
(** ** components/ExamEditForm.tsx *)
(* ===================================================================== *)

Module ExamEditForm.

Definition questionSchema : Parser FormQuestion.t QuestionData.t :=
  fun p q =>
    let '(i_id, id) :=
      number_optional (p ++ [Key "id"]) (FormQuestion.id q) in
    let '(i_text, text) :=
      string_min 1 "Question text is required" (p ++ [Key "text"])
        (FormQuestion.text q) in
    let '(i_answer, ideal_answer) :=
      string_min 1 "Ideal answer is required" (p ++ [Key "ideal_answer"])
        (FormQuestion.ideal_answer q) in
    let '(i_instr, instructions) :=
      string_optional (p ++ [Key "instructions"]) (FormQuestion.instructions q) in
    let '(i_mark, mark) :=
      transform any Js.Number (p ++ [Key "mark"]) (FormQuestion.mark q) in
    (i_id ++ i_text ++ i_answer ++ i_instr ++ i_mark,
     QuestionData.mk id text ideal_answer instructions mark).

(* Use the same schema as creation *)
Definition examFormSchema : Rhf.Schema :=
  fun p v =>
    let '(i_title, title) :=
      string_min 1 "Title is required" (p ++ [Key "title"]) (FormValues.title v) in
    let '(i_subject, subject) :=
      string_min 1 "Subject is required" (p ++ [Key "subject"])
        (FormValues.subject v) in
    let '(i_instr, instructions) :=
      string_min 1 "Instructions are required" (p ++ [Key "instructions"])
        (FormValues.instructions v) in
    let '(i_questions, questions) :=
      array_min questionSchema 1 "You must add at least one question."
        (p ++ [Key "questions"]) (FormValues.questions v) in
    (i_title ++ i_subject ++ i_instr ++ i_questions,
     ExamFormData.mk title subject instructions questions).

(** A fetched question as a field-array entry: the object itself. *)
Definition question_values (q : Question.t) : FormQuestion.t :=
  FormQuestion.mk (Question.id q) (Question.text q) (Question.ideal_answer q)
    (Question.instructions q) (Js.VNumber (Question.mark q))
    (Question.created_at q) (Question.updated_at q).

(* Pre-populate the form with the existing exam data *)
Definition defaultValues (exam : Exam.t) : FormValues.t :=
  FormValues.mk (Exam.title exam) (Exam.subject exam) (Exam.instructions exam)
    (map question_values (Exam.questions exam)).

Definition initial (exam : Exam.t) : Wizard.State :=
  Wizard.mkState 1 (defaultValues exam) [].

Definition handleNext := Wizard.handleNext examFormSchema.

Definition handleBack := Wizard.handleBack.

Definition onSubmit (exam : Exam.t) (data : ExamFormData.t) (fulfilled : bool)
    : list SubmitEffect :=
  Start (ExamApi.UpdateExam (Exam.id exam) data)
  :: (if fulfilled then [Completed] else [ConsoleError "Failed to update exam:"]).

Definition submit_form (exam : Exam.t) (st : Wizard.State) (fulfilled : bool)
    : list SubmitEffect :=
  match snd (Wizard.submit examFormSchema st) with
  | Some data => onSubmit exam data fulfilled
  | None => []
  end.

(** The update request sent when the form is submitted, if any. *)
Definition update_request (exam : Exam.t) (st : Wizard.State)
    : option ExamApi.FetchArgs :=
  match snd (Wizard.submit examFormSchema st) with
  | Some data => Some (ExamApi.updateExam.query (Exam.id exam) data)
  | None => None
  end.

End ExamEditForm.

(* ===================================================================== *)
(** ** app/exams/[id]/page.tsx and app/exams/[id]/edit/page.tsx *)
(* ===================================================================== *)

(** [useParams().id]: a string, an array of strings, or undefined. *)
Inductive RouteParam : Type :=
| ParamString (s : string)
| ParamArray (l : list string)
| ParamUndefined.

(** [Number(params.id)]; an array is first joined with commas. *)
Definition param_to_number (p : RouteParam) : Js.number :=
  match p with
  | ParamString s => Js.Number (Js.VString s)
  | ParamArray l => Js.Number (Js.VString (String.concat "," l))
  | ParamUndefined => Js.Number Js.VUndefined
  end.

(** [useGetExamByIdQuery(arg, { skip })]: the request, unless skipped. *)
Definition useGetExamByIdQuery (arg : Js.number) (skip : bool)
    : option ExamApi.FetchArgs :=
  if skip then None else Some (ExamApi.getExamById.query arg).

Module ExamDetailPage.

Definition id (params_id : RouteParam) : Js.number := param_to_number params_id.

(* Don't run the query if the id is not available yet *)
Definition query (params_id : RouteParam) : option ExamApi.FetchArgs :=
  useGetExamByIdQuery (id params_id) (Js.not_number (id params_id)).

End ExamDetailPage.

Module EditExamPage.

Definition examId (params_id : RouteParam) : Js.number := param_to_number params_id.

Definition query (params_id : RouteParam) : option ExamApi.FetchArgs :=
  useGetExamByIdQuery (examId params_id) (Js.not_number (examId params_id)).

End EditExamPage.

(* ===================================================================== *)
(** ** app/submisson/page.tsx *)
(* ===================================================================== *)

Module SubmissionPage.

Inductive MessageType : Type := success | error | info.

Record Message : Type := mkMessage {
  type : MessageType;
  text : string
}.

(** The callback handed to [setTimeout] in [handleSubmit]; it closes over the
    file selected when the button was pressed. *)
Record Timer : Type := mkTimer {
  delay : Z;
  captured : File.t
}.

Record State : Type := mkState {
  selectedFile : option File.t;
  isDragActive : bool;
  message : option Message;
  timers : list Timer
}.

(** Everything a handler does to the outside of the component state. *)
Inductive Effect : Type :=
| PreventDefault
| StopPropagation
| SetDropEffect (effect : string)
| ClearData
| ConsoleLog (text : string)
| SetTimeout (ms : Z)
| Start (m : ExamApi.Mutation).

Definition is_request (e : Effect) : bool :=
  match e with Start _ => true | _ => false end.

Definition initial : State := mkState None false None [].

Definition quoted (s : string) : string := (dquote ++ s ++ dquote)%string.

Definition handleFileProcessing (file : option File.t) (st : State)
    : State * list Effect :=
  match file with
  | Some f =>
      if String.eqb (File.type f) "application/pdf" then
        (mkState (Some f) (isDragActive st)
           (Some (mkMessage success (quoted (File.name f) ++ " is ready for upload.")%string))
           (timers st), [])
      else
        (mkState None (isDragActive st)
           (Some (mkMessage error "Please upload a PDF file.")) (timers st), [])
  | None =>
      (mkState None (isDragActive st)
         (Some (mkMessage error "Please upload a PDF file.")) (timers st), [])
  end.

Definition handleDragEnter (st : State) : State * list Effect :=
  (mkState (selectedFile st) true (message st) (timers st),
   [PreventDefault; StopPropagation]).

Definition handleDragLeave (st : State) : State * list Effect :=
  (mkState (selectedFile st) false (message st) (timers st),
   [PreventDefault; StopPropagation]).

Definition handleDragOver (st : State) : State * list Effect :=
  (st, [PreventDefault; StopPropagation; SetDropEffect "copy"]).

Definition handleDrop (files : list File.t) (st : State) : State * list Effect :=
  let st1 := mkState (selectedFile st) false (message st) (timers st) in
  match files with
  | f :: _ =>
      let '(st2, effs) := handleFileProcessing (Some f) st1 in
      (st2, [PreventDefault; StopPropagation] ++ effs ++ [ClearData])
  | [] => (st1, [PreventDefault; StopPropagation])
  end.

(** [event.target.files?.[0]]. *)
Definition handleFileChange (files : option (list File.t)) (st : State)
    : State * list Effect :=
  handleFileProcessing
    (match files with Some (f :: _) => Some f | _ => None end) st.

Definition handleSubmit (st : State) : State * list Effect :=
  match selectedFile st with
  | Some f =>
      (mkState (selectedFile st) (isDragActive st)
         (Some (mkMessage info
            ("Uploading " ++ quoted (File.name f)
             ++ "... (This is a placeholder action)")%string))
         (timers st ++ [mkTimer 2000 f]),
       [ConsoleLog ("Submitting file: " ++ File.name f)%string; SetTimeout 2000])
  | None =>
      (mkState (selectedFile st) (isDragActive st)
         (Some (mkMessage error "Please select a PDF file to submit."))
         (timers st), [])
  end.

(** The timeout callback of [handleSubmit]. *)
Definition timeout_callback (t : Timer) (st : State) : State * list Effect :=
  (mkState None (isDragActive st)
     (Some (mkMessage success
        (quoted (File.name (captured t)) ++ " has been uploaded successfully.")%string))
     (timers st), []).

Inductive Event : Type :=
| DragEnter
| DragLeave
| DragOver
| Drop (files : list File.t)
| FileChange (files : option (list File.t))
| ClickSubmit
| TimerFires.

(** One event of the page.  The Submit button is disabled while no file is
    selected; the pending timers all wait 2000 ms, so they fire in order. *)
Definition handle (e : Event) (st : State) : State * list Effect :=
  match e with
  | DragEnter => handleDragEnter st
  | DragLeave => handleDragLeave st
  | DragOver => handleDragOver st
  | Drop files => handleDrop files st
  | FileChange files => handleFileChange files st
  | ClickSubmit =>
      match selectedFile st with
      | Some _ => handleSubmit st
      | None => (st, [])
      end
  | TimerFires =>
      match timers st with
      | t :: rest =>
          timeout_callback t
            (mkState (selectedFile st) (isDragActive st) (message st) rest)
      | [] => (st, [])
      end
  end.

(** A session: the final state and all effects, in order. *)
Fixpoint run (events : list Event) (st : State) : State * list Effect :=
  match events with
  | [] => (st, [])
  | e :: rest =>
      let '(st1, effs1) := handle e st in
      let '(st2, effs2) := run rest st1 in
      (st2, effs1 ++ effs2)
  end.

End SubmissionPage.

(* ===================================================================== *)
(** ** More of JavaScript: [parseInt], [+] and [||] on numbers *)
(* ===================================================================== *)

Module JsMore.

Definition hex_digit_of (c : ascii) : option Z :=
  let n := nat_of_ascii c in
  if (Nat.leb 48 n && Nat.leb n 57)%bool then Some (Z.of_nat n - 48)
  else if (Nat.leb 97 n && Nat.leb n 102)%bool then Some (Z.of_nat n - 87)
  else if (Nat.leb 65 n && Nat.leb n 70)%bool then Some (Z.of_nat n - 55)
  else None.

(** Value of the longest run of digits at the front of [l], in radix
    [radix]; [acc] is [None] until a digit was read. *)
Fixpoint leading_digits (digit : ascii -> option Z) (radix : Z)
    (acc : option Z) (l : list ascii) : option Z :=
  match l with
  | [] => acc
  | c :: r =>
      match digit c with
      | Some d =>
          leading_digits digit radix
            (Some (radix * match acc with Some a => a | None => 0 end + d)) r
      | None => acc
      end
  end.

Definition is_x (c : ascii) : bool := (Ascii.eqb c "x" || Ascii.eqb c "X")%bool.

(** The digits after the sign: a [0x] prefix selects radix 16. *)
Definition unsigned_prefix (l : list ascii) : Js.number :=
  match
    match l with
    | z :: x :: r =>
        if (Ascii.eqb z "0" && is_x x)%bool
        then leading_digits hex_digit_of 16 None r
        else leading_digits Js.digit_of 10 None l
    | _ => leading_digits Js.digit_of 10 None l
    end
  with
  | Some v => Js.Num v
  | None => Js.NaN
  end.

(** [parseInt(s)] without a radix: leading white space is skipped, a sign is
    read, and the longest run of digits that follows gives the value; what
    comes after it is ignored.  The value is kept exact, as JavaScript
    keeps it up to 2^53; beyond, JavaScript rounds it to a double. *)
Definition parseInt (s : string) : Js.number :=
  match Js.trim_start (list_ascii_of_string s) with
  | [] => Js.NaN
  | c :: r =>
      if Ascii.eqb c "+" then unsigned_prefix r
      else if Ascii.eqb c "-" then Js.negate (unsigned_prefix r)
      else unsigned_prefix (c :: r)
  end.

(** [a || b] on numbers. *)
Definition or_else (a b : Js.number) : Js.number :=
  if Js.not_number a then b else a.

(** [a + b] on integers and NaN; exact, as in JavaScript while the sum
    stays within 2^53. *)
Definition add (a b : Js.number) : Js.number :=
  match a, b with
  | Js.Num x, Js.Num y => Js.Num (x + y)
  | _, _ => Js.NaN
  end.

(** [Math.max(a, b)] on two integers. *)
Definition max (a b : Z) : Z := Z.max a b.

End JsMore.

(* ===================================================================== *)
(** ** components/ExamCreation.tsx, the variant with local state *)
(* ===================================================================== *)

Module LocalExamCreation.

Record Question : Type := mkQuestion {
  id : string;
  text : string;
  points : Js.number;
  answer : string
}.

(** [newQuestion], the question being typed. *)
Record Draft : Type := mkDraft {
  draft_text : string;
  draft_points : Js.number;
  draft_answer : string
}.

Record State : Type := mkState {
  step : Z;
  examTitle : string;
  examSubject : string;
  examInstructions : string;
  questions : list Question;
  newQuestion : Draft
}.

Inductive Effect : Type :=
| Toast (title description : string)
| OnBack
| OnComplete.

Definition initial : State :=
  mkState 1 "" "" "" [] (mkDraft "" (Js.Num 10) "").

(** A string in a condition: true unless it is empty. *)
Definition truthy (s : string) : bool := negb (String.eqb s "").

(** [addQuestion]; [now] is what [Date.now()] returns at that moment. *)
Definition addQuestion (now : Z) (st : State) : State * list Effect :=
  if (truthy (draft_text (newQuestion st))
      && truthy (draft_answer (newQuestion st)))%bool
  then
    (mkState (step st) (examTitle st) (examSubject st) (examInstructions st)
       (questions st
        ++ [mkQuestion (Js.number_to_string (Js.Num now))
              (draft_text (newQuestion st)) (draft_points (newQuestion st))
              (draft_answer (newQuestion st))])
       (mkDraft "" (Js.Num 10) ""),
     [Toast "Question added" "Question has been added to the exam."])
  else (st, []).

Definition removeQuestion (id0 : string) (st : State) : State :=
  mkState (step st) (examTitle st) (examSubject st) (examInstructions st)
    (filter (fun q => negb (String.eqb (id q) id0)) (questions st))
    (newQuestion st).

Definition canProceed (st : State) : bool :=
  if step st =? 1 then (truthy (examTitle st) && truthy (examSubject st))%bool
  else if step st =? 2 then Nat.ltb 0 (List.length (questions st))
  else false.

Definition completeExam : list Effect :=
  [Toast "Exam created successfully!" "Your exam is ready for student submissions.";
   OnComplete].

(** [questions.reduce((sum, q) => sum + q.points, 0)]. *)
Definition totalPoints (qs : list Question) : Js.number :=
  fold_left (fun sum q => JsMore.add sum (points q)) qs (Js.Num 0).

Inductive Event : Type :=
| ClickBackToHome
| ChangeTitle (s : string)
| ChangeSubject (s : string)
| ChangeInstructions (s : string)
| ChangeQuestionText (s : string)
| ChangePoints (s : string)
| ChangeAnswer (s : string)
| ClickAddQuestion (now : Z)
| ClickRemoveQuestion (id0 : string)
| ClickPrevious
| ClickNext
| ClickCreateExam.

(** Which control is rendered and active: the inputs of a step on that step,
    a trash button per listed question, Previous unless on step 1, Next while
    [step < 3] and [canProceed()], Create Exam otherwise. *)
Definition enabled (st : State) (e : Event) : bool :=
  match e with
  | ClickBackToHome => true
  | ChangeTitle _ | ChangeSubject _ | ChangeInstructions _ => step st =? 1
  | ChangeQuestionText _ | ChangePoints _ | ChangeAnswer _
  | ClickAddQuestion _ => step st =? 2
  | ClickRemoveQuestion id0 =>
      ((step st =? 2)
       && existsb (fun q => String.eqb (id q) id0) (questions st))%bool
  | ClickPrevious => negb (step st =? 1)
  | ClickNext => ((step st <? 3) && canProceed st)%bool
  | ClickCreateExam => negb (step st <? 3)
  end.

Definition with_draft (d : Draft) (st : State) : State :=
  mkState (step st) (examTitle st) (examSubject st) (examInstructions st)
    (questions st) d.

Definition with_step (n : Z) (st : State) : State :=
  mkState n (examTitle st) (examSubject st) (examInstructions st)
    (questions st) (newQuestion st).

Definition handle (e : Event) (st : State) : State * list Effect :=
  match e with
  | ClickBackToHome => (st, [OnBack])
  | ChangeTitle s =>
      (mkState (step st) s (examSubject st) (examInstructions st)
         (questions st) (newQuestion st), [])
  | ChangeSubject s =>
      (mkState (step st) (examTitle st) s (examInstructions st)
         (questions st) (newQuestion st), [])
  | ChangeInstructions s =>
      (mkState (step st) (examTitle st) (examSubject st) s
         (questions st) (newQuestion st), [])
  | ChangeQuestionText s =>
      (with_draft (mkDraft s (draft_points (newQuestion st))
                     (draft_answer (newQuestion st))) st, [])
  | ChangePoints s =>
      (with_draft (mkDraft (draft_text (newQuestion st))
                     (JsMore.or_else (JsMore.parseInt s) (Js.Num 0))
                     (draft_answer (newQuestion st))) st, [])
  | ChangeAnswer s =>
      (with_draft (mkDraft (draft_text (newQuestion st))
                     (draft_points (newQuestion st)) s) st, [])
  | ClickAddQuestion now => addQuestion now st
  | ClickRemoveQuestion id0 => (removeQuestion id0 st, [])
  | ClickPrevious => (with_step (JsMore.max 1 (step st - 1)) st, [])
  | ClickNext => (with_step (step st + 1) st, [])
  | ClickCreateExam => (st, completeExam)
  end.

(** An event on a control that is not there or not active does nothing. *)
Definition fire (e : Event) (st : State) : State * list Effect :=
  if enabled st e then handle e st else (st, []).

Fixpoint run (events : list Event) (st : State) : State * list Effect :=
  match events with
  | [] => (st, [])
  | e :: rest =>
      let '(st1, effs1) := fire e st in
      let '(st2, effs2) := run rest st1 in
      (st2, effs1 ++ effs2)
  end.

End LocalExamCreation.

(* ===================================================================== *)
(** ** components/ExamList.tsx and what the pages render *)
(* ===================================================================== *)

(** What a query hook hands to the component. *)
Record QueryState (A : Type) : Type := mkQueryState {
  data : option A;
  isLoading : bool;
  isError : bool
}.

Arguments mkQueryState {A} _ _ _.
Arguments data {A} _.
Arguments isLoading {A} _.
Arguments isError {A} _.

Module ExamList.

Inductive View : Type :=
| Skeletons (n : nat)
| ErrorAlert
| NoExamsFound
| Cards (exams : list Exam.t).

Definition view (q : QueryState (list Exam.t)) : View :=
  if isLoading q then Skeletons 3
  else if isError q then ErrorAlert
  else match data q with
       | None => NoExamsFound
       | Some [] => NoExamsFound
       | Some exams => Cards exams
       end.

(** The route segment of a card's link, [`${exam.id}`], and the link. *)
Definition segment (exam : Exam.t) : string := Js.number_to_string (Exam.id exam).

Definition href (exam : Exam.t) : string := ("/exams/" ++ segment exam)%string.

End ExamList.

Module ExamDetailView.

Inductive View : Type :=
| Skeleton
| ErrorAlert
| NotFound
| Details (exam : Exam.t).

(** [no_id] is [!id]: [if (isLoading || !id)], [if (error)], [if (!exam)]. *)
Definition view (no_id : bool) (q : QueryState Exam.t) : View :=
  if (isLoading q || no_id)%bool then Skeleton
  else if isError q then ErrorAlert
  else match data q with
       | None => NotFound
       | Some exam => Details exam
       end.

End ExamDetailView.

Module EditExamView.

Inductive View : Type :=
| Skeleton
| ErrorAlert
| EditForm (exam : Exam.t).

Definition view (q : QueryState Exam.t) : View :=
  if isLoading q then Skeleton
  else match isError q, data q with
       | false, Some exam => EditForm exam
       | _, _ => ErrorAlert
       end.

End EditExamView.

(* ===================================================================== *)
(** ** The detail page and the edit page over JavaScript's numbers *)
(* ===================================================================== *)

Module Pages.

Section OverNumbers.

(** JavaScript's numbers and the three built-in operations the pages apply
    to the id: [Number(params.id)], [!id] and the id in a template literal. *)
Variable number : Type.
Variable ToNumber : RouteParam -> number.
Variable falsy : number -> bool.
Variable template : number -> string.

(** [getExamById]: the query [(id) => `/core/exams/${id}/`]. *)
Definition getExamById (id : number) : ExamApi.FetchArgs :=
  ExamApi.mkFetch ("/core/exams/" ++ template id ++ "/")%string
    ExamApi.GET ExamApi.NoBody.

(** [useGetExamByIdQuery(arg, { skip })]: the request, unless skipped. *)
Definition useGetExamByIdQuery (arg : number) (skip : bool)
    : option ExamApi.FetchArgs :=
  if skip then None else Some (getExamById arg).

(** app/exams/[id]/page.tsx: [const id = Number(params.id)] and
    [useGetExamByIdQuery(id, { skip: !id })]. *)
Definition detail_query (params_id : RouteParam) : option ExamApi.FetchArgs :=
  let id := ToNumber params_id in
  useGetExamByIdQuery id (falsy id).

(** app/exams/[id]/edit/page.tsx: [const examId = Number(params.id)] and
    [useGetExamByIdQuery(examId, { skip: !examId })]. *)
Definition edit_query (params_id : RouteParam) : option ExamApi.FetchArgs :=
  let examId := ToNumber params_id in
  useGetExamByIdQuery examId (falsy examId).

(** What the detail page renders for the state of its hook. *)
Definition detail_view (params_id : RouteParam) (q : QueryState Exam.t)
    : ExamDetailView.View :=
  ExamDetailView.view (falsy (ToNumber params_id)) q.

End OverNumbers.

Arguments getExamById {number} _ _.
Arguments useGetExamByIdQuery {number} _ _ _.
Arguments detail_query {number} _ _ _ _.
Arguments edit_query {number} _ _ _ _.
Arguments detail_view {number} _ _ _ _.

End Pages.

(* ===================================================================== *)
(** ** Vocabulary of the statements *)
(* ===================================================================== *)

Module Spec.

Import ExamApi.

(** The tag of the list cache and the tag of one exam. *)
Definition list_tag : Tag := mkTag "Exam" (Some (IdString "LIST")).

Definition exam_tag (id : Js.number) : Tag := mkTag "Exam" (Some (IdNumber id)).

Definition is_exam_mutation (m : Mutation) : bool :=
  match m with
  | CreateExam _ | UpdateExam _ _ | DeleteExam _ => true
  | UploadPdf _ => false
  end.

(** Where the message of the mark of question [i] is shown. *)
Definition mark_path (i : nat) : Path := [Key "questions"; Idx i; Key "mark"].

Definition with_mark (m : Js.value) : FormValues.t :=
  FormValues.mk "Algebra" "Mathematics" "Grade strictly"
    [FormQuestion.mk None "Solve x + 1 = 2" "x = 1" (Some "") m None None].

(** The listed fields of a fetched question and of a fetched exam. *)
Definition question_fields (q : Question.t) : QuestionData.t :=
  QuestionData.mk (Question.id q) (Question.text q) (Question.ideal_answer q)
    (Question.instructions q) (Question.mark q).

Definition exam_fields (e : Exam.t) : ExamFormData.t :=
  ExamFormData.mk (Exam.title e) (Exam.subject e) (Exam.instructions e)
    (map question_fields (Exam.questions e)).

(** The round trip of one exam: opened in the edit form and submitted as
    loaded, it sends the update of that exam with the fields it came with. *)
Definition round_trips (e : Exam.t) : Prop :=
  forall st : Wizard.State,
    Wizard.values st = ExamEditForm.defaultValues e ->
    ExamEditForm.update_request e st
    = Some (updateExam.query (Exam.id e) (exam_fields e)).

Definition nonempty (s : string) : bool := negb (Nat.ltb (String.length s) 1).

Definition question_fits (q : Question.t) : bool :=
  match Question.id q with Some Js.NaN => false | _ => true end
  && nonempty (Question.text q)
  && nonempty (Question.ideal_answer q).

(** What the edit form's schema asks of an exam. *)
Definition fits_edit_schema (e : Exam.t) : bool :=
  nonempty (Exam.title e)
  && nonempty (Exam.subject e)
  && nonempty (Exam.instructions e)
  && negb (Nat.ltb (List.length (Exam.questions e)) 1)
  && forallb question_fits (Exam.questions e).

Definition exam_without_questions : Exam.t :=
  Exam.mk (Js.Num 7) "Algebra" "Mathematics" "Grade strictly" []
    "2025-01-01T00:00:00Z" "2025-01-01T00:00:00Z".

Definition sample_exam : Exam.t :=
  Exam.mk (Js.Num 7) "Algebra" "Mathematics" "Grade strictly"
    [Question.mk (Some (Js.Num 3)) "Solve x + 1 = 2" "x = 1" None (Js.Num 5)
       (Some "2025-01-01T00:00:00Z") (Some "2025-01-02T00:00:00Z")]
    "2025-01-01T00:00:00Z" "2025-01-02T00:00:00Z".
(** Some effect of the list starts a request to the backend. *)
Definition has_request (effs : list SubmissionPage.Effect) : bool :=
  existsb SubmissionPage.is_request effs.

Definition text_file : File.t := File.mk "notes.txt" "text/plain".

Definition pdf_file : File.t := File.mk "answers.pdf" "application/pdf".

End Spec.

(* ===================================================================== *)
(** ** components/ExamDashboard.tsx: the upload progress *)
(* ===================================================================== *)

Module ExamDashboard.

(** [uploadProgress], [processing], and the intervals started by
    [handleFileUpload] that were not cleared yet ([fresh] numbers them). *)
Record State : Type := mkState {
  uploadProgress : Z;
  processing : bool;
  intervals : list nat;
  fresh : nat
}.

Inductive Effect : Type :=
| Toast (title description : string)
| OnBack.

Definition initial : State := mkState 0 false [] 0.

(** [handleFileUpload]: the bar starts again from 0 and a new interval of
    200 ms is started. *)
Definition handleFileUpload (st : State) : State * list Effect :=
  (mkState 0 true (intervals st ++ [fresh st]) (S (fresh st)), []).

(** One tick of the interval [i]: the updater given to [setUploadProgress]. *)
Definition tick (i : nat) (st : State) : State * list Effect :=
  if 100 <=? uploadProgress st then
    (mkState 100 false
       (filter (fun k => negb (Nat.eqb k i)) (intervals st)) (fresh st),
     [Toast "Upload complete" "Answer sheet uploaded and processing started."])
  else
    (mkState (uploadProgress st + 10) (processing st) (intervals st) (fresh st),
     []).

Inductive Event : Type :=
| ChooseFile
| Tick (i : nat)
| ClickBack.

(** An interval ticks only while it is running. *)
Definition handle (e : Event) (st : State) : State * list Effect :=
  match e with
  | ChooseFile => handleFileUpload st
  | Tick i =>
      if existsb (Nat.eqb i) (intervals st) then tick i st else (st, [])
  | ClickBack => (st, [OnBack])
  end.

Fixpoint run (events : list Event) (st : State) : State * list Effect :=
  match events with
  | [] => (st, [])
  | e :: rest =>
      let '(st1, effs1) := handle e st in
      let '(st2, effs2) := run rest st1 in
      (st2, effs1 ++ effs2)
  end.

End ExamDashboard.

(* ===================================================================== *)
(** ** Vocabulary of the further statements *)
(* ===================================================================== *)

Module Props.

(** The three detail fields are filled in. *)
Definition details_ok (v : FormValues.t) : bool :=
  Spec.nonempty (FormValues.title v)
  && Spec.nonempty (FormValues.subject v)
  && Spec.nonempty (FormValues.instructions v).

(** The validation behind Next passes: on step 1 the schema reports nothing
    at or below title, subject and instructions; on the other steps it
    reports nothing at all. *)
Definition next_passes (schema : Rhf.Schema) (st : Wizard.State) : bool :=
  let found := fst (schema [] (Wizard.values st)) in
  if Wizard.step st =? 1
  then negb (existsb (fun n => Rhf.is_some (Rhf.get found n)) Wizard.step1_fields)
  else Rhf.is_empty found.

(** [n === 0] on the integers. *)
Definition is_zero (n : Js.number) : bool :=
  match n with Js.Num z => z =? 0 | Js.NaN => false end.

Definition is_pdf (f : File.t) : bool :=
  String.eqb (File.type f) "application/pdf".

(** The selected file and the files the pending timers hold are PDFs. *)
Definition only_pdfs (st : SubmissionPage.State) : bool :=
  match SubmissionPage.selectedFile st with
  | Some f => is_pdf f
  | None => true
  end
  && forallb (fun t => is_pdf (SubmissionPage.captured t))
       (SubmissionPage.timers st).

(** A character that [trim] keeps. *)
Definition printable (c : ascii) : Prop := Js.is_whitespace c = false.

(** What the local-state wizard keeps true: the step is 1, 2 or 3; beyond
    step 1 title and subject are filled in; on step 3 there is a question. *)
Definition local_invariant (st : LocalExamCreation.State) : Prop :=
  1 <= LocalExamCreation.step st <= 3
  /\ (2 <= LocalExamCreation.step st ->
      LocalExamCreation.examTitle st <> ""
      /\ LocalExamCreation.examSubject st <> "")
  /\ (LocalExamCreation.step st = 3 -> LocalExamCreation.questions st <> []).

End Props.

(** The issues both schemas raise on the exam itself, as lists. *)
Definition required (s : string) (field msg : string) : list ZodIssue :=
  if Nat.ltb (String.length s) 1 then [mkIssue [Key field] msg] else [].

Definition at_least_one (questions : list FormQuestion.t) : list ZodIssue :=
  if Nat.ltb (List.length questions) 1
  then [mkIssue [Key "questions"] "You must add at least one question."]
  else [].

Definition details_issues (v : FormValues.t) : list ZodIssue :=
  required (FormValues.title v) "title" "Title is required"
  ++ required (FormValues.subject v) "subject" "Subject is required"
  ++ required (FormValues.instructions v) "instructions" "Instructions are required".

(** Extending a session of the wizard by one click or one input. *)

Ltac press_next R name :=
  match type of R with
  | Wizard.reachable ?sch ?init ?s =>
      pose proof (Wizard.r_step sch init s Wizard.ClickNext _ R
                    (Wizard.t_next sch s eq_refl)) as name
  end.

Ltac input R e name :=
  match type of R with
  | Wizard.reachable ?sch ?init ?s =>
      pose proof (Wizard.r_step sch init s e _ R
                    (Wizard.t_edit sch s e [] eq_refl I)) as name
  end.

(* ===================================================================== *)
(** ** Lemmas on lists and on the combinators *)
(* ===================================================================== *)
Lemma find_app_first {A : Type} (f : A -> bool) (l1 l2 : list A) :
  find f (l1 ++ l2)
  = match find f l1 with Some x => Some x | None => find f l2 end.
Proof.
  induction l1 as [|a l1 IH]; simpl; [reflexivity|].
  destruct (f a); [reflexivity | exact IH].
Qed.

Lemma find_filter_none {A : Type} (f g : A -> bool) (l : list A) :
  (forall x, f x = true -> g x = false) -> find f (filter g l) = None.
Proof.
  intros H. induction l as [|a l IH]; simpl; [reflexivity|].
  destruct (g a) eqn:Hg; [|exact IH].
  simpl. destruct (f a) eqn:Hf; [|exact IH].
  apply H in Hf. congruence.
Qed.

Lemma seg_eqb_refl (a : PathSeg) : seg_eqb a a = true.
Proof. destruct a; simpl; [apply String.eqb_refl | apply Nat.eqb_refl]. Qed.

Lemma seg_eqb_eq (a b : PathSeg) : seg_eqb a b = true -> a = b.
Proof.
  destruct a, b; simpl; intros H; try discriminate.
  - apply String.eqb_eq in H. now subst.
  - apply Nat.eqb_eq in H. now subst.
Qed.

Lemma path_eqb_refl (p : Path) : path_eqb p p = true.
Proof. induction p; simpl; [reflexivity|]. now rewrite seg_eqb_refl. Qed.

Lemma path_eqb_eq (p q : Path) : path_eqb p q = true -> p = q.
Proof.
  revert q. induction p as [|a p IH]; intros [|b q]; simpl; intros H;
    try discriminate; [reflexivity|].
  apply andb_true_iff in H as [Ha Hp].
  apply seg_eqb_eq in Ha. apply IH in Hp. now subst.
Qed.

Lemma path_eqb_prefix (p q : Path) : path_eqb q p = true -> path_prefix p q = true.
Proof.
  intros H. apply path_eqb_eq in H. subst q.
  induction p; simpl; [reflexivity|]. now rewrite seg_eqb_refl.
Qed.

(** The errors of the resolver are the issues of the schema. *)
Lemma resolver_errors (schema : Rhf.Schema) (v : FormValues.t) :
  fst (Rhf.resolver schema v) = fst (schema [] v).
Proof.
  unfold Rhf.resolver, safeParse.
  destruct (schema [] v) as [[|i issues] out]; reflexivity.
Qed.

Lemma resolver_data (schema : Rhf.Schema) (v : FormValues.t) :
  snd (Rhf.resolver schema v)
  = match fst (schema [] v) with [] => Some (snd (schema [] v)) | _ => None end.
Proof.
  unfold Rhf.resolver, safeParse.
  destruct (schema [] v) as [[|i issues] out]; reflexivity.
Qed.

(** The issues of an array's items: the issues of each item at its index. *)
Lemma parse_items_issues {I O : Type} (elem : Parser I O) (p : Path) (l : list I) :
  forall (k : nat) (iss : ZodIssue),
    In iss (fst (parse_items elem p k l))
    <-> exists j x, nth_error l j = Some x
                    /\ In iss (fst (elem (p ++ [Idx (k + j)]) x)).
Proof.
  induction l as [|a l IH]; intros k iss; simpl.
  - split; [tauto|]. intros (j & x & Hn & _). destruct j; discriminate.
  - destruct (elem (p ++ [Idx k]) a) as [ia oa] eqn:Ea.
    destruct (parse_items elem p (S k) l) as [ir outr] eqn:Er.
    simpl. rewrite in_app_iff. split.
    + intros [H|H].
      * exists 0%nat, a. rewrite Nat.add_0_r, Ea. split; [reflexivity | exact H].
      * assert (Hr : In iss (fst (parse_items elem p (S k) l))) by now rewrite Er.
        apply IH in Hr as (j & x & Hn & Hi).
        exists (S j), x. rewrite Nat.add_succ_r. split; assumption.
    + intros (j & x & Hn & Hi). destruct j as [|j]; simpl in Hn.
      * injection Hn as <-. rewrite Nat.add_0_r, Ea in Hi. now left.
      * right. change ir with (fst (ir, outr)). rewrite <- Er.
        apply IH. exists j, x. rewrite Nat.add_succ_r in Hi. now split.
Qed.

Lemma parse_items_data {I O : Type} (elem : Parser I O) (p : Path) (l : list I) :
  forall k : nat,
    snd (parse_items elem p k l)
    = map (fun jx => snd (elem (p ++ [Idx (fst jx)]) (snd jx)))
          (combine (seq k (List.length l)) l).
Proof.
  induction l as [|a l IH]; intros k; simpl; [reflexivity|].
  destruct (elem (p ++ [Idx k]) a) as [ia oa] eqn:Ea.
  destruct (parse_items elem p (S k) l) as [ir outr] eqn:Er.
  simpl. f_equal. rewrite <- IH, Er. reflexivity.
Qed.

(** *** The issues of the two schemas, spelled out *)
Lemma creation_issues (v : FormValues.t) :
  fst (ExamCreation.examFormSchema [] v)
  = details_issues v
    ++ at_least_one (FormValues.questions v)
    ++ fst (parse_items ExamCreation.questionSchema [Key "questions"] 0
              (FormValues.questions v)).
Proof.
  unfold ExamCreation.examFormSchema, array_min, string_min, details_issues,
    required, at_least_one.
  simpl app.
  destruct (parse_items ExamCreation.questionSchema [Key "questions"] 0
              (FormValues.questions v)) as [iq oq].
  simpl. now rewrite <- !app_assoc.
Qed.

Lemma edit_issues (v : FormValues.t) :
  fst (ExamEditForm.examFormSchema [] v)
  = details_issues v
    ++ at_least_one (FormValues.questions v)
    ++ fst (parse_items ExamEditForm.questionSchema [Key "questions"] 0
              (FormValues.questions v)).
Proof.
  unfold ExamEditForm.examFormSchema, array_min, string_min, details_issues,
    required, at_least_one.
  simpl app.
  destruct (parse_items ExamEditForm.questionSchema [Key "questions"] 0
              (FormValues.questions v)) as [iq oq].
  simpl. now rewrite <- !app_assoc.
Qed.

Lemma creation_question_issues (p : Path) (q : FormQuestion.t) :
  fst (ExamCreation.questionSchema p q)
  = (if Nat.ltb (String.length (FormQuestion.text q)) 1
     then [mkIssue (p ++ [Key "text"]) "Question text is required"] else [])
    ++ (if Nat.ltb (String.length (FormQuestion.ideal_answer q)) 1
        then [mkIssue (p ++ [Key "ideal_answer"]) "Ideal answer is required"] else [])
    ++ (if ExamCreation.mark_check (FormQuestion.mark q) then []
        else [mkIssue (p ++ [Key "mark"]) "Mark must be a number and at least 1"]).
Proof.
  unfold ExamCreation.questionSchema, string_min, string_optional, transform,
    refine, any.
  simpl. reflexivity.
Qed.

Lemma edit_question_issues (p : Path) (q : FormQuestion.t) :
  fst (ExamEditForm.questionSchema p q)
  = (match FormQuestion.id q with
     | Some Js.NaN => [mkIssue (p ++ [Key "id"]) "Expected number, received nan"]
     | _ => []
     end)
    ++ (if Nat.ltb (String.length (FormQuestion.text q)) 1
        then [mkIssue (p ++ [Key "text"]) "Question text is required"] else [])
    ++ (if Nat.ltb (String.length (FormQuestion.ideal_answer q)) 1
        then [mkIssue (p ++ [Key "ideal_answer"]) "Ideal answer is required"] else []).
Proof.
  unfold ExamEditForm.questionSchema, string_min, string_optional, transform,
    number_optional, any.
  destruct (FormQuestion.id q) as [[z|]|]; simpl; now rewrite ?app_nil_r.
Qed.

Lemma edit_question_data (p : Path) (q : FormQuestion.t) :
  snd (ExamEditForm.questionSchema p q)
  = QuestionData.mk (FormQuestion.id q) (FormQuestion.text q)
      (FormQuestion.ideal_answer q) (FormQuestion.instructions q)
      (Js.Number (FormQuestion.mark q)).
Proof.
  unfold ExamEditForm.questionSchema, string_min, string_optional, transform,
    number_optional, any.
  destruct (FormQuestion.id q) as [[z|]|]; reflexivity.
Qed.

(** The creation schema reports every mark that fails its check, under the
    mark of that question and nowhere else. *)
Lemma creation_reports_mark (v : FormValues.t) (i : nat) (q : FormQuestion.t) :
  nth_error (FormValues.questions v) i = Some q ->
  ExamCreation.mark_check (FormQuestion.mark q) = false ->
  exists issues,
    safeParse ExamCreation.examFormSchema v = inl issues
    /\ Rhf.field_message issues (Spec.mark_path i)
       = Some "Mark must be a number and at least 1".
Proof.
  intros Hn Hm.
  set (bad := mkIssue (Spec.mark_path i) "Mark must be a number and at least 1").
  assert (Hin : In bad (fst (ExamCreation.examFormSchema [] v))).
  { rewrite creation_issues, !in_app_iff. right. right.
    apply parse_items_issues. exists i, q. split; [exact Hn|].
    rewrite creation_question_issues, Hm, !in_app_iff. right. right.
    simpl. now left. }
  assert (Hmsg : forall x, In x (fst (ExamCreation.examFormSchema [] v)) ->
                 path_eqb (path x) (Spec.mark_path i) = true ->
                 message x = "Mark must be a number and at least 1").
  { intros x Hx Hp. apply path_eqb_eq in Hp.
    rewrite creation_issues, !in_app_iff in Hx.
    destruct Hx as [Hx|[Hx|Hx]].
    - unfold details_issues, required in Hx. rewrite !in_app_iff in Hx.
      destruct Hx as [Hx|[Hx|Hx]];
        match type of Hx with In _ (if ?c then _ else _) => destruct c end;
        simpl in Hx; try tauto; destruct Hx as [<-|[]]; discriminate.
    - unfold at_least_one in Hx.
      match type of Hx with In _ (if ?c then _ else _) => destruct c end;
        simpl in Hx; try tauto; destruct Hx as [<-|[]]; discriminate.
    - apply parse_items_issues in Hx as (j & y & _ & Hy).
      rewrite creation_question_issues, !in_app_iff in Hy.
      destruct Hy as [Hy|[Hy|Hy]];
        match type of Hy with In _ (if ?c then _ else _) => destruct c end;
        simpl in Hy; try tauto; destruct Hy as [<-|[]];
        simpl in Hp; try discriminate; reflexivity. }
  unfold safeParse.
  destruct (ExamCreation.examFormSchema [] v) as [issues out] eqn:E.
  simpl in Hin, Hmsg.
  destruct issues as [|i0 issues]; [destruct Hin|].
  exists (i0 :: issues). split; [reflexivity|].
  unfold Rhf.field_message.
  destruct (find (fun x => path_eqb (path x) (Spec.mark_path i)) (i0 :: issues))
    as [x|] eqn:F.
  - apply find_some in F as [Hx Hp]. simpl. f_equal. now apply Hmsg.
  - exfalso. apply (find_none _ _ F) in Hin. simpl in Hin.
    rewrite !Nat.eqb_refl in Hin. discriminate.
Qed.

(** The edit schema never reports anything under a mark. *)
Lemma edit_never_reports_mark (v : FormValues.t) (i : nat) :
  Rhf.field_message (fst (Rhf.resolver ExamEditForm.examFormSchema v))
    (Spec.mark_path i) = None.
Proof.
  rewrite resolver_errors. unfold Rhf.field_message.
  destruct (find _ _) as [x|] eqn:F; [|reflexivity].
  exfalso. apply find_some in F as [Hx Hp]. apply path_eqb_eq in Hp.
  rewrite edit_issues, !in_app_iff in Hx.
  destruct Hx as [Hx|[Hx|Hx]].
  - unfold details_issues, required in Hx. rewrite !in_app_iff in Hx.
    destruct Hx as [Hx|[Hx|Hx]];
      match type of Hx with In _ (if ?c then _ else _) => destruct c end;
      simpl in Hx; try tauto; destruct Hx as [<-|[]]; discriminate.
  - unfold at_least_one in Hx.
    match type of Hx with In _ (if ?c then _ else _) => destruct c end;
      simpl in Hx; try tauto; destruct Hx as [<-|[]]; discriminate.
  - apply parse_items_issues in Hx as (j & y & _ & Hy).
    rewrite edit_question_issues, !in_app_iff in Hy.
    destruct Hy as [Hy|[Hy|Hy]].
    + destruct (FormQuestion.id y) as [[z|]|]; simpl in Hy; try tauto.
      destruct Hy as [<-|[]]. simpl in Hp. discriminate.
    + match type of Hy with In _ (if ?c then _ else _) => destruct c end;
        simpl in Hy; try tauto; destruct Hy as [<-|[]]; simpl in Hp; discriminate.
    + match type of Hy with In _ (if ?c then _ else _) => destruct c end;
        simpl in Hy; try tauto; destruct Hy as [<-|[]]; simpl in Hp; discriminate.
Qed.

(* ===================================================================== *)
(** ** Mark validation in the two forms *)
(* ===================================================================== *)

(** C1.  A question whose mark is the text "abc" or the number 0 (also typed
    as "0" into the number input) must fail validation with a message on the
    mark field, on every form.  The creation form does so: the resolver
    returns no data, the message "Mark must be a number and at least 1" sits
    on [questions.0.mark], and nothing is sent.  The edit form, whose schema
    is announced as the same as creation, lacks the check: it reports nothing
    on the mark and sends the update with the mark NaN, respectively 0. *)
Theorem C1_mark_abc_or_zero :
  Forall (fun m : Js.value =>
    (exists issues,
        Rhf.resolver ExamCreation.examFormSchema (Spec.with_mark m) = (issues, None)
        /\ Rhf.field_message issues (Spec.mark_path 0)
           = Some "Mark must be a number and at least 1"
        /\ ExamCreation.submit_form
             (Wizard.mkState 3 (Spec.with_mark m) []) true = [])
    /\
    (exists data,
        Rhf.resolver ExamEditForm.examFormSchema (Spec.with_mark m) = ([], Some data)
        /\ map QuestionData.mark (ExamFormData.questions data) = [Js.Number m]
        /\ Js.geb (Js.Number m) 1 = false
        /\ ExamEditForm.submit_form Spec.sample_exam
             (Wizard.mkState 3 (Spec.with_mark m) []) true
           = [Start (ExamApi.UpdateExam (Js.Num 7) data); Completed]))
    [Js.VString "abc"; Js.VNumber (Js.Num 0); Js.VString "0"].
Proof.
  repeat constructor; eexists; repeat split; vm_compute; reflexivity.
Qed.

(* ===================================================================== *)
(** ** Cache tags of the exam mutations *)
(* ===================================================================== *)

Lemma number_key_not_LIST (n : Js.number) :
  String.eqb "LIST" (Js.number_to_string n) = false.
Proof.
  destruct n as [z|]; [|reflexivity].
  unfold Js.number_to_string.
  destruct (Z.to_int z) as [d|d]; [destruct d|]; reflexivity.
Qed.

Lemma refetched_In (m : ExamApi.Mutation) (cache : list ExamApi.CacheEntry)
    (e : ExamApi.CacheEntry) :
  In e (ExamApi.refetched m cache)
  <-> In e cache
      /\ ExamApi.is_invalidated (ExamApi.mutation_invalidatesTags m) e = true.
Proof. unfold ExamApi.refetched. apply filter_In. Qed.

Lemma untouched_In (m : ExamApi.Mutation) (cache : list ExamApi.CacheEntry)
    (e : ExamApi.CacheEntry) :
  In e (ExamApi.untouched m cache)
  <-> In e cache
      /\ ExamApi.is_invalidated (ExamApi.mutation_invalidatesTags m) e = false.
Proof.
  unfold ExamApi.untouched. rewrite filter_In, negb_true_iff. reflexivity.
Qed.

Lemma covered_tag_invalidates (tags : list ExamApi.Tag) (e : ExamApi.CacheEntry)
    (t : ExamApi.Tag) :
  In t (ExamApi.entry_tags e) -> ExamApi.covers tags t = true ->
  ExamApi.is_invalidated tags e = true.
Proof.
  intros Ht Hc. unfold ExamApi.is_invalidated.
  apply existsb_exists. now exists t.
Qed.

(** Whatever the list query returned, its entry carries the list tag. *)
Lemma getExams_provides_list (result : option (list Exam.t)) :
  In Spec.list_tag (ExamApi.entry_tags (ExamApi.mkEntry ExamApi.GetExams result)).
Proof.
  unfold ExamApi.entry_tags, ExamApi.query_providesTags. simpl.
  destruct result as [exams|]; simpl.
  - rewrite map_app, in_app_iff. right. simpl. now left.
  - now left.
Qed.

Lemma exam_mutation_covers_list (m : ExamApi.Mutation) :
  Spec.is_exam_mutation m = true ->
  ExamApi.covers (ExamApi.mutation_invalidatesTags m) Spec.list_tag = true.
Proof.
  destruct m as [d|i d|i|fd]; intros H; try discriminate H.
  - reflexivity.
  - unfold ExamApi.covers. apply existsb_exists.
    exists Spec.list_tag. split; [|reflexivity].
    simpl. right. left. reflexivity.
  - reflexivity.
Qed.

Lemma update_covers_exam (i : Js.number) (d : ExamFormData.t) :
  ExamApi.covers (ExamApi.mutation_invalidatesTags (ExamApi.UpdateExam i d))
    (Spec.exam_tag i) = true.
Proof.
  unfold ExamApi.covers. simpl. unfold ExamApi.tag_matches at 1. simpl.
  now rewrite String.eqb_refl.
Qed.

(** C2.  Each exam mutation (create, update, delete) declares invalidation
    tags that cover the list cache, and update also covers the entry of the
    exam it changes; every cached query result carrying a covered tag is
    among the entries refetched after the mutation, so the list query always
    is, and after an update so is the query of that exam. *)
Theorem C2_exam_mutations_invalidate_list (m : ExamApi.Mutation) :
  Spec.is_exam_mutation m = true ->
  ExamApi.covers (ExamApi.mutation_invalidatesTags m) Spec.list_tag = true
  /\ (forall i d, m = ExamApi.UpdateExam i d ->
        ExamApi.covers (ExamApi.mutation_invalidatesTags m) (Spec.exam_tag i) = true)
  /\ (forall cache e t,
        In e cache -> In t (ExamApi.entry_tags e) ->
        ExamApi.covers (ExamApi.mutation_invalidatesTags m) t = true ->
        In e (ExamApi.refetched m cache))
  /\ (forall cache result,
        In (ExamApi.mkEntry ExamApi.GetExams result) cache ->
        In (ExamApi.mkEntry ExamApi.GetExams result) (ExamApi.refetched m cache))
  /\ (forall cache i d result,
        m = ExamApi.UpdateExam i d ->
        In (ExamApi.mkEntry (ExamApi.GetExamById i) result) cache ->
        In (ExamApi.mkEntry (ExamApi.GetExamById i) result)
           (ExamApi.refetched m cache)).
Proof.
  intros Hm.
  assert (Hgen : forall cache e t,
        In e cache -> In t (ExamApi.entry_tags e) ->
        ExamApi.covers (ExamApi.mutation_invalidatesTags m) t = true ->
        In e (ExamApi.refetched m cache)).
  { intros cache e t He Ht Hc. apply refetched_In. split; [exact He|].
    now apply covered_tag_invalidates with t. }
  split; [now apply exam_mutation_covers_list|].
  split; [intros i d ->; apply update_covers_exam|].
  split; [exact Hgen|].
  split.
  - intros cache result He.
    apply Hgen with Spec.list_tag; [exact He | apply getExams_provides_list |].
    now apply exam_mutation_covers_list.
  - intros cache i d result -> He.
    apply Hgen with (Spec.exam_tag i); [exact He | now left |].
    apply update_covers_exam.
Qed.

Lemma C2_exam_mutations_invalidate_list_witness :
  Spec.is_exam_mutation
    (ExamApi.UpdateExam (Js.Num 7) (Spec.exam_fields Spec.sample_exam)) = true
  /\ In (ExamApi.mkEntry ExamApi.GetExams (Some [Spec.sample_exam]))
        (ExamApi.refetched
           (ExamApi.UpdateExam (Js.Num 7) (Spec.exam_fields Spec.sample_exam))
           [ExamApi.mkEntry ExamApi.GetExams (Some [Spec.sample_exam])]).
Proof.
  split; [reflexivity|].
  apply (C2_exam_mutations_invalidate_list
           (ExamApi.UpdateExam (Js.Num 7) (Spec.exam_fields Spec.sample_exam))
           eq_refl).
  simpl. left. reflexivity.
Defined.

(** C10.  For every id, deleteExam declares exactly one invalidation tag, the
    list tag; the tag of the deleted exam is not among its tags and is not
    covered by them, so a cached result of the query of that exam is not
    invalidated and stays among the untouched entries. *)
Theorem C10_delete_invalidates_list_only (i : Js.number) :
  ExamApi.deleteExam.invalidatesTags i = [ExamApi.TagObject Spec.list_tag]
  /\ ~ In (Spec.exam_tag i)
          (ExamApi.mutation_invalidatesTags (ExamApi.DeleteExam i))
  /\ ExamApi.covers (ExamApi.mutation_invalidatesTags (ExamApi.DeleteExam i))
       (Spec.exam_tag i) = false
  /\ (forall result,
        ExamApi.is_invalidated
          (ExamApi.mutation_invalidatesTags (ExamApi.DeleteExam i))
          (ExamApi.mkEntry (ExamApi.GetExamById i) result) = false)
  /\ (forall cache result,
        In (ExamApi.mkEntry (ExamApi.GetExamById i) result) cache ->
        In (ExamApi.mkEntry (ExamApi.GetExamById i) result)
           (ExamApi.untouched (ExamApi.DeleteExam i) cache)).
Proof.
  assert (Hc : ExamApi.covers
                 (ExamApi.mutation_invalidatesTags (ExamApi.DeleteExam i))
                 (Spec.exam_tag i) = false).
  { unfold ExamApi.covers, Spec.exam_tag.
    cbn [ExamApi.mutation_invalidatesTags ExamApi.deleteExam.invalidatesTags
         map ExamApi.expandTagDescription existsb ExamApi.tag_matches
         ExamApi.type ExamApi.id ExamApi.tag_id_key].
    unfold ExamApi.tag_matches.
    cbn [ExamApi.type ExamApi.id ExamApi.tag_id_key].
    rewrite number_key_not_LIST. reflexivity. }
  assert (Hi : forall result,
        ExamApi.is_invalidated
          (ExamApi.mutation_invalidatesTags (ExamApi.DeleteExam i))
          (ExamApi.mkEntry (ExamApi.GetExamById i) result) = false).
  { intros result. unfold ExamApi.is_invalidated.
    change (ExamApi.entry_tags (ExamApi.mkEntry (ExamApi.GetExamById i) result))
      with [Spec.exam_tag i].
    cbn [existsb]. rewrite Hc. reflexivity. }
  split; [reflexivity|].
  split.
  { simpl. intros [H|[]]. discriminate H. }
  split; [exact Hc|].
  split; [exact Hi|].
  intros cache result He. apply untouched_In. split; [exact He | apply Hi].
Qed.

Lemma C10_delete_invalidates_list_only_witness :
  In (ExamApi.mkEntry (ExamApi.GetExamById (Js.Num 7)) (Some [Spec.sample_exam]))
     [ExamApi.mkEntry ExamApi.GetExams (Some [Spec.sample_exam]);
      ExamApi.mkEntry (ExamApi.GetExamById (Js.Num 7)) (Some [Spec.sample_exam])]
  /\ In (ExamApi.mkEntry (ExamApi.GetExamById (Js.Num 7)) (Some [Spec.sample_exam]))
        (ExamApi.untouched (ExamApi.DeleteExam (Js.Num 7))
           [ExamApi.mkEntry ExamApi.GetExams (Some [Spec.sample_exam]);
            ExamApi.mkEntry (ExamApi.GetExamById (Js.Num 7)) (Some [Spec.sample_exam])]).
Proof.
  assert (H : In (ExamApi.mkEntry (ExamApi.GetExamById (Js.Num 7))
                    (Some [Spec.sample_exam]))
     [ExamApi.mkEntry ExamApi.GetExams (Some [Spec.sample_exam]);
      ExamApi.mkEntry (ExamApi.GetExamById (Js.Num 7)) (Some [Spec.sample_exam])]).
  { simpl. right. left. reflexivity. }
  split; [exact H|].
  exact (proj2 (proj2 (proj2 (proj2
           (C10_delete_invalidates_list_only (Js.Num 7))))) _ _ H).
Defined.

(* ===================================================================== *)
(** ** The wizard: validation-gated steps *)
(* ===================================================================== *)

Section WizardFacts.

Variable schema : Rhf.Schema.

(** [handleNext] on step 1 validates the three detail fields only. *)
Lemma handleNext_details (st : Wizard.State) :
  Wizard.step st = 1 ->
  Wizard.handleNext schema st
  = let found := fst (schema [] (Wizard.values st)) in
    Wizard.mkState
      (if negb (existsb (fun n => Rhf.is_some (Rhf.get found n)) Wizard.step1_fields)
       then Wizard.step st + 1 else Wizard.step st)
      (Wizard.values st)
      (filter (fun i => negb (Rhf.below_any Wizard.step1_fields (path i)))
              (Wizard.errors st)
       ++ filter (fun i => Rhf.below_any Wizard.step1_fields (path i)) found).
Proof.
  intros H. unfold Wizard.handleNext, Rhf.trigger.
  rewrite H, resolver_errors. reflexivity.
Qed.

(** On the other steps it validates the whole form. *)
Lemma handleNext_whole (st : Wizard.State) :
  Wizard.step st <> 1 ->
  Wizard.handleNext schema st
  = let found := fst (schema [] (Wizard.values st)) in
    Wizard.mkState
      (if Rhf.is_empty found then Wizard.step st + 1 else Wizard.step st)
      (Wizard.values st) found.
Proof.
  intros H. unfold Wizard.handleNext, Rhf.trigger.
  apply Z.eqb_neq in H. rewrite H, resolver_errors. reflexivity.
Qed.

Lemma handleNext_step (st : Wizard.State) :
  Wizard.step (Wizard.handleNext schema st) = Wizard.step st
  \/ Wizard.step (Wizard.handleNext schema st) = Wizard.step st + 1.
Proof.
  unfold Wizard.handleNext.
  destruct (Rhf.trigger schema _ _ _) as [[|] errs]; simpl; auto.
Qed.

(** Next adds 1 to the step exactly when its validation passes. *)
Lemma handleNext_gate (st : Wizard.State) :
  Wizard.step (Wizard.handleNext schema st)
  = if Props.next_passes schema st then Wizard.step st + 1 else Wizard.step st.
Proof.
  unfold Props.next_passes. cbv zeta.
  destruct (Z.eq_dec (Wizard.step st) 1) as [E|E].
  - rewrite (handleNext_details st E). cbv zeta. cbn [Wizard.step].
    rewrite E. reflexivity.
  - rewrite (handleNext_whole st E). cbv zeta. cbn [Wizard.step].
    apply Z.eqb_neq in E. rewrite E. reflexivity.
Qed.

Lemma handleNext_values (st : Wizard.State) :
  Wizard.values (Wizard.handleNext schema st) = Wizard.values st.
Proof.
  unfold Wizard.handleNext.
  destruct (Rhf.trigger schema _ _ _) as [ok errs]; reflexivity.
Qed.

Lemma submit_step (st : Wizard.State) :
  Wizard.step (fst (Wizard.submit schema st)) = Wizard.step st.
Proof.
  unfold Wizard.submit.
  destruct (Rhf.handleSubmit schema _) as [errs data]; reflexivity.
Qed.

(** What one event does to the step. *)
Lemma transition_step (st st' : Wizard.State) (e : Wizard.Event) :
  Wizard.transition schema st e st' ->
  match e with
  | Wizard.ClickNext =>
      Wizard.step st < 3
      /\ (Wizard.step st' = Wizard.step st \/ Wizard.step st' = Wizard.step st + 1)
  | Wizard.ClickBack => 1 < Wizard.step st /\ Wizard.step st' = Wizard.step st - 1
  | _ => Wizard.step st' = Wizard.step st
  end.
Proof.
  intros T. destruct T as [st En|st En|st En|st|st e errs En Hk].
  - split; [now apply Z.ltb_lt | apply handleNext_step].
  - split; [now apply Z.ltb_lt | reflexivity].
  - reflexivity.
  - apply submit_step.
  - destruct e; (contradiction || reflexivity).
Qed.

(** Next is handled by [handleNext], Back by [handleBack]. *)
Lemma transition_next (st st' : Wizard.State) :
  Wizard.transition schema st Wizard.ClickNext st' ->
  Wizard.step st < 3 /\ st' = Wizard.handleNext schema st.
Proof.
  intros T. inversion T as [s En|s En|s En|s|s e errs En Hk]; subst.
  - split; [now apply Z.ltb_lt | reflexivity].
  - contradiction.
Qed.

Lemma transition_back (st st' : Wizard.State) :
  Wizard.transition schema st Wizard.ClickBack st' ->
  1 < Wizard.step st /\ st' = Wizard.handleBack st.
Proof.
  intros T. inversion T as [s En|s En|s En|s|s e errs En Hk]; subst.
  - split; [now apply Z.ltb_lt | reflexivity].
  - contradiction.
Qed.

Lemma transition_keeps_range (st st' : Wizard.State) (e : Wizard.Event) :
  Wizard.transition schema st e st' ->
  1 <= Wizard.step st <= 3 -> 1 <= Wizard.step st' <= 3.
Proof.
  intros T R. apply transition_step in T.
  destruct e; try (rewrite T; exact R).
  - destruct T as [Hlt [-> | ->]]; lia.
  - destruct T as [Hlt ->]. lia.
Qed.

Lemma reachable_range (init st : Wizard.State) :
  Wizard.step init = 1 ->
  Wizard.reachable schema init st -> 1 <= Wizard.step st <= 3.
Proof.
  intros Hi R. induction R as [|st e st' R IH T].
  - lia.
  - now apply transition_keeps_range with st e.
Qed.

End WizardFacts.

Lemma below_details_exact (x : ZodIssue) (field : string) :
  In [Key field] Wizard.step1_fields ->
  path_eqb (path x) [Key field] = true ->
  Rhf.below_any Wizard.step1_fields (path x) = true.
Proof.
  intros Hf Hp. apply path_eqb_eq in Hp. rewrite Hp.
  simpl in Hf. destruct Hf as [H|[H|[H|[]]]]; injection H as <-; reflexivity.
Qed.

(** After [handleNext] on step 1 the message under a detail field is the one
    of the fresh validation. *)
Lemma details_message (old found : list ZodIssue) (field : string) :
  In [Key field] Wizard.step1_fields ->
  Rhf.field_message
    (filter (fun i => negb (Rhf.below_any Wizard.step1_fields (path i))) old
     ++ filter (fun i => Rhf.below_any Wizard.step1_fields (path i)) found)
    [Key field]
  = Rhf.field_message found [Key field].
Proof.
  intros Hf. unfold Rhf.field_message. f_equal.
  rewrite find_app_first, find_filter_none.
  - induction found as [|a found IH]; [reflexivity|].
    cbn [filter find].
    destruct (Rhf.below_any Wizard.step1_fields (path a)) eqn:B; cbn [find].
    + destruct (path_eqb (path a) [Key field]); [reflexivity | exact IH].
    + destruct (path_eqb (path a) [Key field]) eqn:P; [|exact IH].
      apply (below_details_exact a field Hf) in P. congruence.
  - intros x P. apply (below_details_exact x field Hf) in P. now rewrite P.
Qed.

Lemma empty_is_required (s : string) (field msg : string) :
  s = "" -> required s field msg = [mkIssue [Key field] msg].
Proof. intros ->. reflexivity. Qed.

Lemma required_cases (s : string) (field msg : string) :
  required s field msg = [] \/ required s field msg = [mkIssue [Key field] msg].
Proof. unfold required. destruct (Nat.ltb _ _); auto. Qed.

Lemma empty_title_found (v : FormValues.t) (rest : list ZodIssue) :
  FormValues.title v = "" ->
  Rhf.is_some (Rhf.get (details_issues v ++ rest) [Key "title"]) = true
  /\ Rhf.field_message (details_issues v ++ rest) [Key "title"]
     = Some "Title is required".
Proof.
  intros H. unfold details_issues. rewrite (empty_is_required _ _ _ H).
  split; reflexivity.
Qed.

Lemma empty_subject_found (v : FormValues.t) (rest : list ZodIssue) :
  FormValues.subject v = "" ->
  Rhf.is_some (Rhf.get (details_issues v ++ rest) [Key "subject"]) = true
  /\ Rhf.field_message (details_issues v ++ rest) [Key "subject"]
     = Some "Subject is required".
Proof.
  intros H. unfold details_issues. rewrite (empty_is_required _ _ _ H).
  destruct (required_cases (FormValues.title v) "title" "Title is required")
    as [-> | ->]; split; reflexivity.
Qed.

(** C4.  On step 1 with an empty title or an empty subject, [handleNext]
    (advance) fails validation: the step stays 1, the form values are the same,
    the message of each empty field is shown under it ("Title is required",
    "Subject is required"), and the messages outside the three detail fields
    are exactly those shown before. *)
Theorem C4_advance_rejected_on_empty_details (st : Wizard.State) :
  Wizard.step st = 1 ->
  FormValues.title (Wizard.values st) = ""
  \/ FormValues.subject (Wizard.values st) = "" ->
  Wizard.enabled st Wizard.ClickNext = true
  /\ Wizard.transition ExamCreation.examFormSchema st Wizard.ClickNext
       (ExamCreation.handleNext st)
  /\ Wizard.step (ExamCreation.handleNext st) = 1
  /\ Wizard.values (ExamCreation.handleNext st) = Wizard.values st
  /\ (FormValues.title (Wizard.values st) = "" ->
      Rhf.field_message (Wizard.errors (ExamCreation.handleNext st)) [Key "title"]
      = Some "Title is required")
  /\ (FormValues.subject (Wizard.values st) = "" ->
      Rhf.field_message (Wizard.errors (ExamCreation.handleNext st)) [Key "subject"]
      = Some "Subject is required")
  /\ (forall i : ZodIssue,
        Rhf.below_any Wizard.step1_fields (path i) = false ->
        (In i (Wizard.errors (ExamCreation.handleNext st))
         <-> In i (Wizard.errors st))).
Proof.
  intros Hstep Hempty.
  assert (En : Wizard.enabled st Wizard.ClickNext = true).
  { simpl. rewrite Hstep. reflexivity. }
  split; [exact En|].
  split; [now constructor|].
  unfold ExamCreation.handleNext.
  rewrite (handleNext_details _ _ Hstep). cbv zeta.
  rewrite creation_issues.
  set (rest := at_least_one _ ++ _).
  cbn [Wizard.step Wizard.values Wizard.errors].
  split.
  { assert (Hex : existsb
              (fun n => Rhf.is_some (Rhf.get (details_issues (Wizard.values st) ++ rest) n))
              Wizard.step1_fields = true).
    { apply existsb_exists. destruct Hempty as [H|H].
      - exists [Key "title"]. split; [simpl; auto|].
        apply (empty_title_found _ rest H).
      - exists [Key "subject"]. split; [simpl; auto|].
        apply (empty_subject_found _ rest H). }
    rewrite Hex. exact Hstep. }
  split; [reflexivity|].
  split.
  { intros H. rewrite details_message by (simpl; auto).
    apply (empty_title_found _ rest H). }
  split.
  { intros H. rewrite details_message by (simpl; auto).
    apply (empty_subject_found _ rest H). }
  intros i Hi. rewrite in_app_iff, !filter_In, Hi. simpl.
  split; [intros [[H _]|[_ H]]; [exact H | discriminate H] | intros H; left; auto].
Qed.

Lemma C4_advance_rejected_on_empty_details_witness :
  Wizard.step ExamCreation.initial = 1
  /\ Wizard.step (ExamCreation.handleNext ExamCreation.initial) = 1.
Proof.
  split; [reflexivity|].
  exact (proj1 (proj2 (proj2
           (C4_advance_rejected_on_empty_details ExamCreation.initial
              eq_refl (or_introl eq_refl))))).
Defined.

(** C3.  On step 2 with an empty list of questions, the Next button runs
    [handleNext], the whole-form validation raises "You must add at least one
    question." on the questions field, and the step stays 2 with the values
    unchanged; yet on step 2 the Remove button of the only question is active
    and removing it leaves the list empty. *)
Theorem C3_no_questions_rejected_at_step_2 (st : Wizard.State) :
  Wizard.step st = 2 ->
  FormValues.questions (Wizard.values st) = [] ->
  Wizard.transition ExamCreation.examFormSchema st Wizard.ClickNext
    (ExamCreation.handleNext st)
  /\ Wizard.step (ExamCreation.handleNext st) = 2
  /\ Wizard.values (ExamCreation.handleNext st) = Wizard.values st
  /\ Rhf.field_message (Wizard.errors (ExamCreation.handleNext st)) [Key "questions"]
     = Some "You must add at least one question."
  /\ (forall (one : Wizard.State) (q : FormQuestion.t),
        Wizard.step one = 2 ->
        FormValues.questions (Wizard.values one) = [q] ->
        Wizard.enabled one (Wizard.ClickRemove 0) = true
        /\ FormValues.questions
             (Wizard.edit (Wizard.ClickRemove 0) (Wizard.values one)) = []).
Proof.
  intros Hstep Hq.
  split.
  { constructor. simpl. rewrite Hstep. reflexivity. }
  unfold ExamCreation.handleNext.
  rewrite handleNext_whole by (rewrite Hstep; discriminate).
  cbv zeta. rewrite creation_issues, Hq.
  cbn [Wizard.step Wizard.values Wizard.errors parse_items fst].
  unfold details_issues.
  destruct (required_cases (FormValues.title (Wizard.values st)) "title"
              "Title is required") as [-> | ->];
  destruct (required_cases (FormValues.subject (Wizard.values st)) "subject"
              "Subject is required") as [-> | ->];
  destruct (required_cases (FormValues.instructions (Wizard.values st))
              "instructions" "Instructions are required") as [-> | ->];
  (split; [exact Hstep|]; split; [reflexivity|]; split; [reflexivity|]);
  intros one q H1 H2; simpl; rewrite H1, H2; split; reflexivity.
Qed.

Lemma C3_no_questions_rejected_at_step_2_witness :
  Wizard.step (Wizard.mkState 2 (FormValues.mk "Algebra" "Mathematics" "Grade" []) []) = 2
  /\ Wizard.step
       (ExamCreation.handleNext
          (Wizard.mkState 2 (FormValues.mk "Algebra" "Mathematics" "Grade" []) []))
     = 2.
Proof.
  split; [reflexivity|].
  exact (proj1 (proj2
           (C3_no_questions_rejected_at_step_2
              (Wizard.mkState 2 (FormValues.mk "Algebra" "Mathematics" "Grade" []) [])
              eq_refl eq_refl))).
Defined.

(** C5.  Whatever schema the wizard validates with, in every state reachable
    from an initial state on step 1 through the events of the rendered form
    the step is 1, 2 or 3, and the state an event leads to is again within
    1..3.  Next is there only below step 3 and is handled by [handleNext]: it
    adds exactly 1 to the step when the validation of the current step
    passes and leaves the step when it fails.  Back is there only above
    step 1 and subtracts exactly 1.  Every other event, submission included,
    keeps the step. *)
Theorem C5_step_stays_within_three
    (schema : Rhf.Schema) (init st : Wizard.State) :
  Wizard.step init = 1 ->
  Wizard.reachable schema init st ->
  (Wizard.step st = 1 \/ Wizard.step st = 2 \/ Wizard.step st = 3)
  /\ (forall (e : Wizard.Event) (st' : Wizard.State),
        Wizard.transition schema st e st' ->
        1 <= Wizard.step st' <= 3
        /\ match e with
           | Wizard.ClickNext =>
               Wizard.step st < 3
               /\ st' = Wizard.handleNext schema st
               /\ Wizard.step st'
                  = (if Props.next_passes schema st
                     then Wizard.step st + 1 else Wizard.step st)
           | Wizard.ClickBack =>
               1 < Wizard.step st /\ Wizard.step st' = Wizard.step st - 1
           | _ => Wizard.step st' = Wizard.step st
           end).
Proof.
  intros Hi R.
  assert (Hr : 1 <= Wizard.step st <= 3).
  { now apply (reachable_range schema init). }
  split; [lia|].
  intros e st' T. split.
  - now apply (transition_keeps_range schema st st' e).
  - destruct e; try exact (transition_step schema st st' _ T).
    + destruct (transition_next schema st st' T) as [Hlt ->].
      split; [exact Hlt|]. split; [reflexivity | apply handleNext_gate].
Qed.

(** The creation wizard: with the details typed in, Next leads from step 1 to
    step 2 and Back from there to step 1 again; on the empty form Next stays
    on step 1. *)
Lemma C5_step_stays_within_three_witness :
  exists st : Wizard.State,
    Wizard.reachable ExamCreation.examFormSchema ExamCreation.initial st
    /\ Wizard.step st = 1
    /\ Wizard.step (ExamCreation.handleNext st) = 2
    /\ Wizard.step (Wizard.handleBack (ExamCreation.handleNext st)) = 1
    /\ Wizard.step (ExamCreation.handleNext ExamCreation.initial) = 1.
Proof.
  pose proof (Wizard.r_init ExamCreation.examFormSchema ExamCreation.initial) as R0.
  input R0 (Wizard.ChangeTitle "Algebra") R1.
  input R1 (Wizard.ChangeSubject "Mathematics") R2.
  input R2 (Wizard.ChangeInstructions "Grade strictly") R3.
  press_next R3 R4.
  eexists. split; [exact R3|]. split; [reflexivity|]. split; [|split].
  - match type of R3 with
    | Wizard.reachable ?sch ?init ?s =>
        exact (proj2 (proj2 (proj2
                 (proj2 (C5_step_stays_within_three sch init s eq_refl R3)
                    Wizard.ClickNext _ (Wizard.t_next sch s eq_refl)))))
    end.
  - match type of R4 with
    | Wizard.reachable ?sch ?init ?s =>
        exact (proj2 (proj2
                 (proj2 (C5_step_stays_within_three sch init s eq_refl R4)
                    Wizard.ClickBack _ (Wizard.t_back sch s eq_refl))))
    end.
  - match type of R0 with
    | Wizard.reachable ?sch ?init ?s =>
        exact (proj2 (proj2 (proj2
                 (proj2 (C5_step_stays_within_three sch init s eq_refl R0)
                    Wizard.ClickNext _ (Wizard.t_next sch s eq_refl)))))
    end.
Defined.

(* ===================================================================== *)
(** ** The edit form: fetch, load, submit *)
(* ===================================================================== *)

Lemma nonempty_required (s : string) (field msg : string) :
  Spec.nonempty s = true -> required s field msg = [].
Proof.
  unfold Spec.nonempty, required. intros H.
  apply negb_true_iff in H. now rewrite H.
Qed.

Lemma loaded_questions_data (p : Path) (qs : list Question.t) :
  forall k : nat,
    snd (parse_items ExamEditForm.questionSchema p k
           (map ExamEditForm.question_values qs))
    = map Spec.question_fields qs.
Proof.
  induction qs as [|q qs IH]; intros k; [reflexivity|].
  cbn [map parse_items].
  pose proof (edit_question_data (p ++ [Idx k]) (ExamEditForm.question_values q)) as Hd.
  destruct (ExamEditForm.questionSchema (p ++ [Idx k])
              (ExamEditForm.question_values q)) as [iq oq].
  specialize (IH (S k)).
  destruct (parse_items ExamEditForm.questionSchema p (S k)
              (map ExamEditForm.question_values qs)) as [ir outr].
  simpl in *. subst. reflexivity.
Qed.

Lemma loaded_questions_issues (p : Path) (qs : list Question.t) :
  forallb Spec.question_fits qs = true ->
  forall k : nat,
    fst (parse_items ExamEditForm.questionSchema p k
           (map ExamEditForm.question_values qs)) = [].
Proof.
  induction qs as [|q qs IH]; intros Hfit k; [reflexivity|].
  cbn [forallb] in Hfit. apply andb_true_iff in Hfit as [Hq Hqs].
  cbn [map parse_items].
  pose proof (edit_question_issues (p ++ [Idx k]) (ExamEditForm.question_values q)) as Hi.
  destruct (ExamEditForm.questionSchema (p ++ [Idx k])
              (ExamEditForm.question_values q)) as [iq oq].
  specialize (IH Hqs (S k)).
  destruct (parse_items ExamEditForm.questionSchema p (S k)
              (map ExamEditForm.question_values qs)) as [ir outr].
  simpl in IH, Hi. simpl. subst ir. rewrite app_nil_r, Hi.
  unfold Spec.question_fits, Spec.nonempty in Hq.
  apply andb_true_iff in Hq as [Hq Ha]. apply andb_true_iff in Hq as [Hid Ht].
  apply negb_true_iff in Ht, Ha. simpl. rewrite Ht, Ha.
  destruct (Question.id q) as [[z|]|]; [reflexivity | discriminate | reflexivity].
Qed.

(** The issues of the edit schema on a loaded exam vanish exactly when the
    exam fits the schema. *)
Lemma loaded_exam_issues (e : Exam.t) :
  Spec.fits_edit_schema e = true ->
  fst (ExamEditForm.examFormSchema [] (ExamEditForm.defaultValues e)) = [].
Proof.
  unfold Spec.fits_edit_schema. intros H.
  apply andb_true_iff in H as [H Hq]. apply andb_true_iff in H as [H Hn].
  apply andb_true_iff in H as [H Hi]. apply andb_true_iff in H as [Ht Hs].
  rewrite edit_issues. unfold details_issues, at_least_one.
  cbn [ExamEditForm.defaultValues FormValues.title FormValues.subject
       FormValues.instructions FormValues.questions].
  rewrite !nonempty_required by assumption.
  rewrite length_map. apply negb_true_iff in Hn. rewrite Hn.
  rewrite loaded_questions_issues by assumption. reflexivity.
Qed.

Lemma loaded_exam_data (e : Exam.t) :
  snd (ExamEditForm.examFormSchema [] (ExamEditForm.defaultValues e))
  = Spec.exam_fields e.
Proof.
  unfold ExamEditForm.examFormSchema, array_min, string_min.
  cbn [ExamEditForm.defaultValues FormValues.title FormValues.subject
       FormValues.instructions FormValues.questions app].
  pose proof (loaded_questions_data [Key "questions"] (Exam.questions e) 0) as Hd.
  destruct (parse_items ExamEditForm.questionSchema [Key "questions"] 0
              (map ExamEditForm.question_values (Exam.questions e))) as [iq oq].
  simpl in Hd. subst oq. reflexivity.
Qed.

Lemma update_request_data (e : Exam.t) (st : Wizard.State) :
  ExamEditForm.update_request e st
  = match fst (ExamEditForm.examFormSchema [] (Wizard.values st)) with
    | [] => Some (ExamApi.updateExam.query (Exam.id e)
                    (snd (ExamEditForm.examFormSchema [] (Wizard.values st))))
    | _ => None
    end.
Proof.
  unfold ExamEditForm.update_request, Wizard.submit, Rhf.handleSubmit.
  pose proof (resolver_data ExamEditForm.examFormSchema (Wizard.values st)) as Hd.
  destruct (Rhf.resolver ExamEditForm.examFormSchema (Wizard.values st)) as [errs data].
  simpl in Hd. simpl. rewrite Hd.
  destruct (fst (ExamEditForm.examFormSchema [] (Wizard.values st))); reflexivity.
Qed.

(** An exam without questions is turned away by the edit form: nothing is
    sent for it. *)
Lemma exam_without_questions_sends_nothing :
  ExamEditForm.update_request Spec.exam_without_questions
    (ExamEditForm.initial Spec.exam_without_questions) = None.
Proof. reflexivity. Qed.

(** C6, as stated, fails: the exam "Algebra" with no questions is a fetched
    exam whose unmodified resubmission produces no update payload at all. *)
Lemma C6_counterexample : ~ Spec.round_trips Spec.exam_without_questions.
Proof.
  intros H.
  specialize (H (ExamEditForm.initial Spec.exam_without_questions) eq_refl).
  rewrite exam_without_questions_sends_nothing in H. discriminate H.
Qed.

(** With a fitting exam loaded, Next passes on step 1 and on step 2 and the
    review step shows the exam as loaded. *)
Lemma fitting_exam_reaches_review (e : Exam.t) :
  Spec.fits_edit_schema e = true ->
  ExamEditForm.handleNext (ExamEditForm.handleNext (ExamEditForm.initial e))
  = Wizard.mkState 3 (ExamEditForm.defaultValues e) [].
Proof.
  intros Hfit. unfold ExamEditForm.handleNext.
  rewrite (handleNext_details _ (ExamEditForm.initial e) eq_refl).
  cbv zeta. cbn [ExamEditForm.initial Wizard.values Wizard.step Wizard.errors].
  rewrite (loaded_exam_issues e Hfit).
  cbn [filter app existsb Wizard.step1_fields Rhf.get find Rhf.is_some negb orb].
  rewrite handleNext_whole by discriminate.
  cbv zeta. cbn [Wizard.values Wizard.step].
  rewrite (loaded_exam_issues e Hfit). reflexivity.
Qed.

Lemma unfit_question_reported (p : Path) (q : Question.t) :
  Spec.question_fits q = false ->
  fst (ExamEditForm.questionSchema p (ExamEditForm.question_values q)) <> [].
Proof.
  unfold Spec.question_fits, Spec.nonempty. intros H.
  rewrite edit_question_issues. cbn [ExamEditForm.question_values
    FormQuestion.id FormQuestion.text FormQuestion.ideal_answer].
  destruct (Question.id q) as [[z|]|]; cbn [app]; try discriminate;
    destruct (Nat.ltb (String.length (Question.text q)) 1); try discriminate;
    destruct (Nat.ltb (String.length (Question.ideal_answer q)) 1);
    try discriminate; discriminate H.
Qed.

Lemma unfit_questions_reported (p : Path) (qs : list Question.t) :
  forallb Spec.question_fits qs = false ->
  forall k : nat,
    fst (parse_items ExamEditForm.questionSchema p k
           (map ExamEditForm.question_values qs)) <> [].
Proof.
  induction qs as [|q qs IH]; intros H k; [discriminate H|].
  cbn [forallb] in H. cbn [map parse_items].
  pose proof (unfit_question_reported (p ++ [Idx k]) q) as Hq.
  destruct (ExamEditForm.questionSchema (p ++ [Idx k])
              (ExamEditForm.question_values q)) as [iq oq].
  specialize (IH).
  destruct (Spec.question_fits q).
  - simpl in H. specialize (IH H (S k)).
    destruct (parse_items ExamEditForm.questionSchema p (S k)
                (map ExamEditForm.question_values qs)) as [ir outr].
    simpl in *. intros E. apply app_eq_nil in E as [_ E]. contradiction.
  - specialize (Hq eq_refl).
    destruct (parse_items ExamEditForm.questionSchema p (S k)
                (map ExamEditForm.question_values qs)) as [ir outr].
    simpl in *. intros E. apply app_eq_nil in E as [E _]. contradiction.
Qed.

(** An exam that does not fit the schema is turned away: submitting it as
    loaded sends nothing. *)
Lemma unfit_exam_sends_nothing (e : Exam.t) (st : Wizard.State) :
  Spec.fits_edit_schema e = false ->
  Wizard.values st = ExamEditForm.defaultValues e ->
  ExamEditForm.update_request e st = None.
Proof.
  intros Hfit Hv. rewrite update_request_data, Hv.
  assert (Hne : fst (ExamEditForm.examFormSchema []
                       (ExamEditForm.defaultValues e)) <> []).
  { rewrite edit_issues. unfold details_issues, at_least_one, required.
    cbn [ExamEditForm.defaultValues FormValues.title FormValues.subject
         FormValues.instructions FormValues.questions].
    rewrite length_map.
    unfold Spec.fits_edit_schema, Spec.nonempty in Hfit.
    destruct (Nat.ltb (String.length (Exam.title e)) 1); [discriminate|].
    destruct (Nat.ltb (String.length (Exam.subject e)) 1); [discriminate|].
    destruct (Nat.ltb (String.length (Exam.instructions e)) 1); [discriminate|].
    destruct (Nat.ltb (List.length (Exam.questions e)) 1); [discriminate|].
    simpl in Hfit. simpl. now apply unfit_questions_reported. }
  destruct (fst (ExamEditForm.examFormSchema [] (ExamEditForm.defaultValues e)));
    [contradiction | reflexivity].
Qed.

(** C6, amended.  For every fetched exam that fits the edit form's schema
    (non-empty title, subject and instructions; at least one question; every
    question with non-empty text and ideal answer and an id that is absent or
    a proper number), loading it into the edit form and submitting it
    unmodified sends PUT /core/exams/{id}/ with a payload whose title,
    subject, instructions and questions (id, text, ideal_answer,
    instructions, mark) equal those of the fetched exam; pressing Next twice
    on the loaded form leads to the review step, where submission starts
    exactly that update. *)
Theorem C6_round_trip_of_fitting_exam (e : Exam.t) :
  Spec.fits_edit_schema e = true ->
  Spec.round_trips e
  /\ Wizard.step
       (ExamEditForm.handleNext (ExamEditForm.handleNext (ExamEditForm.initial e)))
     = 3
  /\ ExamEditForm.submit_form e
       (ExamEditForm.handleNext (ExamEditForm.handleNext (ExamEditForm.initial e)))
       true
     = [Start (ExamApi.UpdateExam (Exam.id e) (Spec.exam_fields e)); Completed].
Proof.
  intros Hfit.
  split.
  { intros st Hv.
    rewrite update_request_data, Hv, loaded_exam_issues by exact Hfit.
    now rewrite loaded_exam_data. }
  rewrite (fitting_exam_reaches_review e Hfit).
  split; [reflexivity|].
  unfold ExamEditForm.submit_form, Wizard.submit, Rhf.handleSubmit.
  pose proof (resolver_data ExamEditForm.examFormSchema
                (ExamEditForm.defaultValues e)) as Hd.
  rewrite (loaded_exam_issues e Hfit), loaded_exam_data in Hd.
  cbn [Wizard.values].
  destruct (Rhf.resolver ExamEditForm.examFormSchema
              (ExamEditForm.defaultValues e)) as [errs data].
  simpl in Hd. simpl. rewrite Hd. reflexivity.
Qed.

Lemma C6_round_trip_of_fitting_exam_witness :
  Spec.fits_edit_schema Spec.sample_exam = true
  /\ Spec.round_trips Spec.sample_exam.
Proof.
  split; [reflexivity|].
  exact (proj1 (C6_round_trip_of_fitting_exam Spec.sample_exam eq_refl)).
Defined.

(* ===================================================================== *)
(** ** The detail and edit pages: when the query runs *)
(* ===================================================================== *)

Lemma skipped_iff_falsy (n : Js.number) :
  Js.not_number n = true <-> n = Js.NaN \/ n = Js.Num 0.
Proof.
  destruct n as [z|]; simpl.
  - rewrite Z.eqb_eq. split.
    + intros ->. now right.
    + intros [H|H]; [discriminate | now injection H].
  - split; auto.
Qed.

(** On the integers [!n] is [isNaN(n) || n === 0], and the pages over them
    are the pages of [ExamDetailPage] and [EditExamPage]. *)
Lemma not_number_spec (n : Js.number) :
  Js.not_number n = (Js.isNaN n || Props.is_zero n)%bool.
Proof. destruct n; reflexivity. Qed.

Lemma pages_on_integers (p : RouteParam) :
  ExamDetailPage.query p
  = Pages.detail_query param_to_number Js.not_number Js.number_to_string p
  /\ EditExamPage.query p
     = Pages.edit_query param_to_number Js.not_number Js.number_to_string p.
Proof. split; reflexivity. Qed.

(** C8.  Take JavaScript's numbers with [Number(params.id)], [!n] and the
    text of a number in a template literal as they are, [!n] being true
    exactly of NaN and of 0.  When the coercion of the route parameter is NaN
    or 0, the query of the exam is skipped on the detail page and on the edit
    page; for every other id both pages issue GET /core/exams/{id}/ with
    that id. *)
Theorem C8_query_skipped_iff_id_falsy
    (number : Type) (ToNumber : RouteParam -> number)
    (falsy isNaN is_zero : number -> bool) (template : number -> string)
    (p : RouteParam) :
  (forall n : number, falsy n = (isNaN n || is_zero n)%bool) ->
  (isNaN (ToNumber p) = true \/ is_zero (ToNumber p) = true ->
   Pages.detail_query ToNumber falsy template p = None
   /\ Pages.edit_query ToNumber falsy template p = None)
  /\ (isNaN (ToNumber p) = false -> is_zero (ToNumber p) = false ->
      Pages.detail_query ToNumber falsy template p
      = Some (ExamApi.mkFetch
                ("/core/exams/" ++ template (ToNumber p) ++ "/")%string
                ExamApi.GET ExamApi.NoBody)
      /\ Pages.edit_query ToNumber falsy template p
         = Some (ExamApi.mkFetch
                   ("/core/exams/" ++ template (ToNumber p) ++ "/")%string
                   ExamApi.GET ExamApi.NoBody)).
Proof.
  intros Hnot.
  unfold Pages.detail_query, Pages.edit_query, Pages.useGetExamByIdQuery,
    Pages.getExamById.
  cbv zeta. rewrite Hnot. split.
  - intros [H|H]; rewrite H; rewrite ?orb_true_r; split; reflexivity.
  - intros H1 H2. rewrite H1, H2. split; reflexivity.
Qed.

(** On the integers: the parameters abc and 0 are skipped, 7 is queried. *)
Lemma C8_query_skipped_iff_id_falsy_witness :
  (Js.isNaN (param_to_number (ParamString "abc")) = true
   /\ Pages.detail_query param_to_number Js.not_number Js.number_to_string
        (ParamString "abc") = None
   /\ Pages.edit_query param_to_number Js.not_number Js.number_to_string
        (ParamString "abc") = None)
  /\ (Props.is_zero (param_to_number (ParamString "0")) = true
      /\ Pages.detail_query param_to_number Js.not_number Js.number_to_string
           (ParamString "0") = None)
  /\ (param_to_number (ParamString "7") = Js.Num 7
      /\ Pages.edit_query param_to_number Js.not_number Js.number_to_string
           (ParamString "7")
         = Some (ExamApi.mkFetch "/core/exams/7/" ExamApi.GET ExamApi.NoBody)).
Proof.
  split; [|split].
  - split; [reflexivity|].
    exact (proj1 (C8_query_skipped_iff_id_falsy Js.number param_to_number
                    Js.not_number Js.isNaN Props.is_zero Js.number_to_string
                    (ParamString "abc") not_number_spec)
             (or_introl eq_refl)).
  - split; [reflexivity|].
    exact (proj1 (proj1 (C8_query_skipped_iff_id_falsy Js.number param_to_number
                           Js.not_number Js.isNaN Props.is_zero
                           Js.number_to_string
                           (ParamString "0") not_number_spec)
                    (or_intror eq_refl))).
  - split; [reflexivity|].
    exact (proj2 (proj2 (C8_query_skipped_iff_id_falsy Js.number param_to_number
                           Js.not_number Js.isNaN Props.is_zero
                           Js.number_to_string
                           (ParamString "7") not_number_spec)
                    eq_refl eq_refl)).
Defined.

(* ===================================================================== *)
(** ** The submission page *)
(* ===================================================================== *)

Lemma has_request_app (a b : list SubmissionPage.Effect) :
  Spec.has_request (a ++ b) = (Spec.has_request a || Spec.has_request b)%bool.
Proof. unfold Spec.has_request. apply existsb_app. Qed.

Lemma handleFileProcessing_local (file : option File.t) (st : SubmissionPage.State) :
  snd (SubmissionPage.handleFileProcessing file st) = [].
Proof.
  unfold SubmissionPage.handleFileProcessing.
  destruct file as [f|]; [destruct (String.eqb _ _)|]; reflexivity.
Qed.

(** No handler of the page starts a request. *)
Lemma handle_local (e : SubmissionPage.Event) (st : SubmissionPage.State) :
  Spec.has_request (snd (SubmissionPage.handle e st)) = false.
Proof.
  destruct e as [| | |files|files| |]; simpl; try reflexivity.
  - unfold SubmissionPage.handleDrop. destruct files as [|f files]; [reflexivity|].
    pose proof (handleFileProcessing_local (Some f)
      (SubmissionPage.mkState (SubmissionPage.selectedFile st) false
         (SubmissionPage.message st) (SubmissionPage.timers st))) as H.
    destruct (SubmissionPage.handleFileProcessing _ _) as [st2 effs].
    simpl in H. subst effs. reflexivity.
  - unfold SubmissionPage.handleFileChange.
    now rewrite handleFileProcessing_local.
  - unfold SubmissionPage.handleSubmit.
    destruct (SubmissionPage.selectedFile st); reflexivity.
  - destruct (SubmissionPage.timers st); reflexivity.
Qed.

Lemma run_local (events : list SubmissionPage.Event) :
  forall st, Spec.has_request (snd (SubmissionPage.run events st)) = false.
Proof.
  induction events as [|e events IH]; intros st; [reflexivity|].
  cbn [SubmissionPage.run].
  pose proof (handle_local e st) as He.
  destruct (SubmissionPage.handle e st) as [st1 effs1].
  specialize (IH st1).
  destruct (SubmissionPage.run events st1) as [st2 effs2].
  simpl in *. now rewrite has_request_app, He, IH.
Qed.

(** C7.  A file whose type is not application/pdf is rejected by
    [handleFileProcessing]: the selection is cleared, the message asks for a
    PDF file, and the handler has no effect outside the component; choosing
    the file in the input or dropping it goes through that handler; pressing
    Submit afterwards only reports that no file is selected; and whatever
    happens next on the page, no request is started. *)
Theorem C7_non_pdf_rejected (f : File.t) (st : SubmissionPage.State) :
  File.type f <> "application/pdf" ->
  SubmissionPage.handleFileProcessing (Some f) st
  = (SubmissionPage.mkState None (SubmissionPage.isDragActive st)
       (Some (SubmissionPage.mkMessage SubmissionPage.error "Please upload a PDF file."))
       (SubmissionPage.timers st), [])
  /\ (forall rest,
        SubmissionPage.handle (SubmissionPage.FileChange (Some (f :: rest))) st
        = SubmissionPage.handleFileProcessing (Some f) st)
  /\ (forall rest,
        SubmissionPage.selectedFile
          (fst (SubmissionPage.handle (SubmissionPage.Drop (f :: rest)) st)) = None
        /\ Spec.has_request
             (snd (SubmissionPage.handle (SubmissionPage.Drop (f :: rest)) st)) = false)
  /\ snd (SubmissionPage.handleSubmit
            (fst (SubmissionPage.handleFileProcessing (Some f) st))) = []
  /\ (forall events,
        Spec.has_request
          (snd (SubmissionPage.run events
                  (fst (SubmissionPage.handleFileProcessing (Some f) st)))) = false).
Proof.
  intros Hty.
  assert (E : String.eqb (File.type f) "application/pdf" = false).
  { apply String.eqb_neq. exact Hty. }
  assert (Hp : forall s, SubmissionPage.handleFileProcessing (Some f) s
    = (SubmissionPage.mkState None (SubmissionPage.isDragActive s)
         (Some (SubmissionPage.mkMessage SubmissionPage.error "Please upload a PDF file."))
         (SubmissionPage.timers s), [])).
  { intros s. unfold SubmissionPage.handleFileProcessing. now rewrite E. }
  split; [apply Hp|].
  split; [reflexivity|].
  split.
  { intros rest. cbn [SubmissionPage.handle SubmissionPage.handleDrop].
    rewrite Hp. split; reflexivity. }
  split.
  { rewrite Hp. reflexivity. }
  intros events. apply run_local.
Qed.

Lemma C7_non_pdf_rejected_witness :
  File.type Spec.text_file <> "application/pdf"
  /\ SubmissionPage.handleFileProcessing (Some Spec.text_file) SubmissionPage.initial
     = (SubmissionPage.mkState None false
          (Some (SubmissionPage.mkMessage SubmissionPage.error "Please upload a PDF file."))
          [], []).
Proof.
  assert (H : File.type Spec.text_file <> "application/pdf") by discriminate.
  split; [exact H|].
  exact (proj1 (C7_non_pdf_rejected Spec.text_file SubmissionPage.initial H)).
Defined.

(** C9.  With a file selected, [handleSubmit] only logs to the console, sets
    the info message and arms a 2000 ms timer; when the timer fires the
    success message is set and the selection cleared; neither starts a
    request, and in no session of the page, whatever the events, is a request
    (the uploadPdf mutation included) ever started. *)
Theorem C9_submit_is_local (f : File.t) (drag : bool)
    (msg : option SubmissionPage.Message) (ts : list SubmissionPage.Timer) :
  SubmissionPage.handleSubmit (SubmissionPage.mkState (Some f) drag msg ts)
  = (SubmissionPage.mkState (Some f) drag
       (Some (SubmissionPage.mkMessage SubmissionPage.info
          ("Uploading " ++ SubmissionPage.quoted (File.name f)
           ++ "... (This is a placeholder action)")%string))
       (ts ++ [SubmissionPage.mkTimer 2000 f]),
     [SubmissionPage.ConsoleLog ("Submitting file: " ++ File.name f)%string;
      SubmissionPage.SetTimeout 2000])
  /\ SubmissionPage.handle SubmissionPage.TimerFires
       (SubmissionPage.mkState (Some f) drag msg [SubmissionPage.mkTimer 2000 f])
     = (SubmissionPage.mkState None drag
          (Some (SubmissionPage.mkMessage SubmissionPage.success
             (SubmissionPage.quoted (File.name f)
              ++ " has been uploaded successfully.")%string))
          [], [])
  /\ (forall (events : list SubmissionPage.Event) (st : SubmissionPage.State),
        Spec.has_request (snd (SubmissionPage.run events st)) = false)
  /\ (forall (events : list SubmissionPage.Event) (st : SubmissionPage.State)
             (fd : ExamApi.FormData),
        ~ In (SubmissionPage.Start (ExamApi.UploadPdf fd))
             (snd (SubmissionPage.run events st))).
Proof.
  split; [reflexivity|].
  split; [reflexivity|].
  split; [intros events st; apply run_local|].
  intros events st fd Hin.
  pose proof (run_local events st) as H.
  unfold Spec.has_request in H.
  assert (Ht : existsb SubmissionPage.is_request
                 (snd (SubmissionPage.run events st)) = true).
  { apply existsb_exists. eexists. split; [exact Hin | reflexivity]. }
  congruence.
Qed.

Lemma C9_submit_is_local_witness :
  SubmissionPage.run
    [SubmissionPage.FileChange (Some [Spec.pdf_file]);
     SubmissionPage.ClickSubmit; SubmissionPage.TimerFires]
    SubmissionPage.initial
  = (SubmissionPage.mkState None false
       (Some (SubmissionPage.mkMessage SubmissionPage.success
          (SubmissionPage.quoted "answers.pdf" ++ " has been uploaded successfully.")%string))
       [],
     [SubmissionPage.ConsoleLog "Submitting file: answers.pdf";
      SubmissionPage.SetTimeout 2000])
  /\ Spec.has_request
       (snd (SubmissionPage.run
               [SubmissionPage.FileChange (Some [Spec.pdf_file]);
                SubmissionPage.ClickSubmit; SubmissionPage.TimerFires]
               SubmissionPage.initial)) = false.
Proof.
  split; [reflexivity|].
  exact (proj1 (proj2 (proj2
           (C9_submit_is_local Spec.pdf_file false None []))) _ _).
Defined.

(* ===================================================================== *)
(** ** A complete session of the creation wizard *)
(* ===================================================================== *)

(** Filling in the details, pressing Next, filling in the first question and
    pressing Next again leads to the review step, where submission creates
    the exam as typed. *)
Lemma creation_wizard_reaches_review :
  exists st : Wizard.State,
    Wizard.reachable ExamCreation.examFormSchema ExamCreation.initial st
    /\ Wizard.step st = 3
    /\ ExamCreation.submit_form st true
       = [Start (ExamApi.CreateExam
                   (ExamFormData.mk "Algebra" "Mathematics" "Grade strictly"
                      [QuestionData.mk None "Solve x + 1 = 2" "x = 1" (Some "")
                         (Js.Num 10)]));
          Completed].
Proof.
  pose proof (Wizard.r_init ExamCreation.examFormSchema ExamCreation.initial) as R0.
  input R0 (Wizard.ChangeTitle "Algebra") R1.
  input R1 (Wizard.ChangeSubject "Mathematics") R2.
  input R2 (Wizard.ChangeInstructions "Grade strictly") R3.
  press_next R3 R4.
  input R4 (Wizard.ChangeQuestionText 0 "Solve x + 1 = 2") R5.
  input R5 (Wizard.ChangeIdealAnswer 0 "x = 1") R6.
  press_next R6 R7.
  eexists. split; [exact R7|]. split; vm_compute; reflexivity.
Qed.

(** The questions can be emptied on step 2, and Next then stays there. *)
Lemma creation_wizard_can_empty_questions :
  exists st : Wizard.State,
    Wizard.reachable ExamCreation.examFormSchema ExamCreation.initial st
    /\ Wizard.step st = 2
    /\ FormValues.questions (Wizard.values st) = []
    /\ Wizard.step (ExamCreation.handleNext st) = 2.
Proof.
  pose proof (Wizard.r_init ExamCreation.examFormSchema ExamCreation.initial) as R0.
  input R0 (Wizard.ChangeTitle "Algebra") R1.
  input R1 (Wizard.ChangeSubject "Mathematics") R2.
  input R2 (Wizard.ChangeInstructions "Grade strictly") R3.
  press_next R3 R4.
  input R4 (Wizard.ClickRemove 0) R5.
  eexists. split; [exact R5|]. repeat split; vm_compute; reflexivity.
Qed.

(** The tag type used by the exam endpoints is not among the tag types
    [apiSlice] declares. *)
Lemma exam_tag_type_not_declared : ~ In "Exam" ExamApi.tagTypes.
Proof. simpl. intros [H|[]]. discriminate H. Qed.

(* ===================================================================== *)
(** ** The detail fields in order *)
(* ===================================================================== *)

Lemma nonempty_spec (s : string) : Spec.nonempty s = true <-> s <> "".
Proof.
  unfold Spec.nonempty. destruct s; simpl; split; intros H; congruence.
Qed.

Lemma required_nil_iff (s field msg : string) :
  required s field msg = [] <-> Spec.nonempty s = true.
Proof.
  unfold required, Spec.nonempty. destruct (Nat.ltb _ _); simpl; split;
    intros H; congruence.
Qed.

Lemma details_issues_nil_iff (v : FormValues.t) :
  details_issues v = [] <-> Props.details_ok v = true.
Proof.
  unfold details_issues, Props.details_ok.
  rewrite !andb_true_iff, <- !required_nil_iff.
  split.
  - intros H. apply app_eq_nil in H as [H1 H]. apply app_eq_nil in H as [H2 H3].
    repeat split; eassumption.
  - intros [[H1 H2] H3]. rewrite H1, H2. exact H3.
Qed.

(* ===================================================================== *)
(** ** The review step holds a form that is in order *)
(* ===================================================================== *)

Section ReviewStep.

Variable schema : Rhf.Schema.

(** Step 3 is entered by Next on step 2 only, after the whole form went
    through the schema; nothing on step 3 writes the values. *)
Lemma transition_keeps_review (st st' : Wizard.State) (e : Wizard.Event) :
  Wizard.transition schema st e st' ->
  1 <= Wizard.step st <= 3 ->
  (Wizard.step st = 3 -> fst (schema [] (Wizard.values st)) = []) ->
  Wizard.step st' = 3 -> fst (schema [] (Wizard.values st')) = [].
Proof.
  intros T R Inv H3.
  destruct T as [st En|st En|st En|st|st e errs En Hk].
  - simpl in En. apply Z.ltb_lt in En.
    destruct (Z.eq_dec (Wizard.step st) 1) as [E1|E1].
    + rewrite (handleNext_details schema st E1) in H3. cbv zeta in H3.
      cbn [Wizard.step] in H3.
      destruct (negb _) in H3; lia.
    + rewrite (handleNext_whole schema st E1) in *. cbv zeta in *.
      cbn [Wizard.step Wizard.values] in *.
      destruct (fst (schema [] (Wizard.values st))); [reflexivity|].
      simpl in H3. lia.
  - simpl in H3. lia.
  - now apply Inv.
  - rewrite submit_step in H3.
    unfold Wizard.submit. destruct (Rhf.handleSubmit schema _) as [errs d].
    simpl. now apply Inv.
  - cbn [Wizard.step] in H3.
    destruct e; try contradiction; simpl in En;
      try (apply andb_true_iff in En as [En _]);
      apply Z.eqb_eq in En; lia.
Qed.

Lemma review_in_order (init st : Wizard.State) :
  Wizard.step init = 1 ->
  Wizard.reachable schema init st ->
  Wizard.step st = 3 -> fst (schema [] (Wizard.values st)) = [].
Proof.
  intros Hi R. induction R as [|st e st' R IH T].
  - intros H. rewrite Hi in H. discriminate H.
  - apply (transition_keeps_review st st' e T); [|exact IH].
    now apply (reachable_range schema init).
Qed.

End ReviewStep.

(** X2.  Whatever schema the wizard validates with, every state on the
    review step that can be reached from an initial state on step 1 holds
    values the schema has nothing to report on, so submitting the form there
    always clears the messages and hands the values as the schema parsed
    them to [onSubmit]; with the creation form's [onSubmit] that starts the
    creation request of exactly these parsed values. *)
Theorem review_step_always_submits
    (schema : Rhf.Schema) (init st : Wizard.State) :
  Wizard.step init = 1 ->
  Wizard.reachable schema init st ->
  Wizard.step st = 3 ->
  fst (schema [] (Wizard.values st)) = []
  /\ Wizard.submit schema st
     = (Wizard.mkState 3 (Wizard.values st) [],
        Some (snd (schema [] (Wizard.values st))))
  /\ (forall fulfilled : bool,
        match snd (Wizard.submit schema st) with
        | Some data => ExamCreation.onSubmit data fulfilled
        | None => []
        end
        = Start (ExamApi.CreateExam (snd (schema [] (Wizard.values st))))
          :: (if fulfilled then [Completed]
              else [ConsoleError "Failed to create exam:"])).
Proof.
  intros Hi R H3.
  pose proof (review_in_order schema init st Hi R H3) as Hok.
  assert (Hs : Wizard.submit schema st
               = (Wizard.mkState 3 (Wizard.values st) [],
                  Some (snd (schema [] (Wizard.values st))))).
  { unfold Wizard.submit, Rhf.handleSubmit.
    pose proof (resolver_errors schema (Wizard.values st)) as He.
    pose proof (resolver_data schema (Wizard.values st)) as Hd.
    destruct (Rhf.resolver schema (Wizard.values st)) as [errs d].
    simpl in He, Hd. rewrite Hok in He. subst errs.
    rewrite Hok in Hd. subst d. rewrite H3. reflexivity. }
  split; [exact Hok|]. split; [exact Hs|].
  intros fulfilled. rewrite Hs. reflexivity.
Qed.


Lemma get_details_none (v : FormValues.t) (rest : list ZodIssue) (field : string) :
  In [Key field] Wizard.step1_fields ->
  (forall x, In x rest -> exists tl, path x = Key "questions" :: tl) ->
  Props.details_ok v = true ->
  Rhf.get (details_issues v ++ rest) [Key field] = None.
Proof.
  intros Hf Hrest Hok. apply details_issues_nil_iff in Hok. rewrite Hok.
  unfold Rhf.get. simpl app.
  destruct (find _ rest) as [x|] eqn:F; [|reflexivity].
  apply find_some in F as [Hx Hp]. destruct (Hrest x Hx) as [tl Htl].
  rewrite Htl in Hp. simpl in Hf.
  destruct Hf as [H|[H|[H|[]]]]; injection H as <-; discriminate Hp.
Qed.

Lemma creation_question_paths (v : FormValues.t) (x : ZodIssue) :
  In x (at_least_one (FormValues.questions v)
        ++ fst (parse_items ExamCreation.questionSchema [Key "questions"] 0
                  (FormValues.questions v))) ->
  exists tl, path x = Key "questions" :: tl.
Proof.
  rewrite in_app_iff. intros [H|H].
  - unfold at_least_one in H. destruct (Nat.ltb _ _); [|destruct H].
    destruct H as [<-|[]]. now exists [].
  - apply parse_items_issues in H as (j & q & _ & H).
    rewrite creation_question_issues, !in_app_iff in H.
    destruct H as [H|[H|H]];
      match type of H with In _ (if ?c then _ else _) => destruct c end;
      simpl in H; try tauto; destruct H as [<-|[]]; eexists; reflexivity.
Qed.

Lemma edit_question_paths (v : FormValues.t) (x : ZodIssue) :
  In x (at_least_one (FormValues.questions v)
        ++ fst (parse_items ExamEditForm.questionSchema [Key "questions"] 0
                  (FormValues.questions v))) ->
  exists tl, path x = Key "questions" :: tl.
Proof.
  rewrite in_app_iff. intros [H|H].
  - unfold at_least_one in H. destruct (Nat.ltb _ _); [|destruct H].
    destruct H as [<-|[]]. now exists [].
  - apply parse_items_issues in H as (j & q & _ & H).
    rewrite edit_question_issues, !in_app_iff in H.
    destruct H as [H|[H|H]].
    + destruct (FormQuestion.id q) as [[z|]|]; simpl in H; try tauto.
      destruct H as [<-|[]]. eexists; reflexivity.
    + destruct (Nat.ltb _ _); simpl in H; try tauto.
      destruct H as [<-|[]]. eexists; reflexivity.
    + destruct (Nat.ltb _ _); simpl in H; try tauto.
      destruct H as [<-|[]]. eexists; reflexivity.
Qed.

(** Whatever a schema reports besides the detail fields, if it reports it
    under the questions, Next on step 1 looks at the three detail fields
    only. *)
Lemma next_on_details (schema : Rhf.Schema) (st : Wizard.State)
    (rest : list ZodIssue) :
  fst (schema [] (Wizard.values st)) = details_issues (Wizard.values st) ++ rest ->
  (forall x, In x rest -> exists tl, path x = Key "questions" :: tl) ->
  Wizard.step st = 1 ->
  Wizard.step (Wizard.handleNext schema st)
  = if Props.details_ok (Wizard.values st) then 2 else 1.
Proof.
  intros Hfound Hrest Hs.
  rewrite (handleNext_details _ _ Hs). cbv zeta. cbn [Wizard.step].
  rewrite Hfound.
  destruct (Props.details_ok (Wizard.values st)) eqn:Hok.
  - cbn [existsb Wizard.step1_fields].
    rewrite !(get_details_none _ rest _) by (simpl; auto).
    simpl. rewrite Hs. reflexivity.
  - assert (Hex : existsb
      (fun n => Rhf.is_some (Rhf.get (details_issues (Wizard.values st) ++ rest) n))
      Wizard.step1_fields = true).
    { apply existsb_exists.
      unfold Props.details_ok, Spec.nonempty in Hok.
      unfold details_issues, required.
      destruct (Nat.ltb (String.length (FormValues.title (Wizard.values st))) 1).
      { exists [Key "title"]. split; [simpl; auto | reflexivity]. }
      destruct (Nat.ltb (String.length (FormValues.subject (Wizard.values st))) 1).
      { exists [Key "subject"]. split; [simpl; auto | reflexivity]. }
      destruct (Nat.ltb (String.length (FormValues.instructions (Wizard.values st))) 1);
        [|discriminate Hok].
      exists [Key "instructions"]. split; [simpl; auto | reflexivity]. }
    rewrite Hex. simpl. exact Hs.
Qed.

(** X4.  In the creation wizard and in the edit form, Next on step 1 checks
    the three detail fields and nothing else: it leads to step 2 exactly
    when title, subject and instructions are non-empty, whatever the
    questions and their marks hold, and it leaves the values alone. *)
Theorem next_on_step_1_checks_details (st : Wizard.State) :
  Wizard.step st = 1 ->
  Wizard.step (ExamCreation.handleNext st)
  = (if Props.details_ok (Wizard.values st) then 2 else 1)
  /\ Wizard.step (ExamEditForm.handleNext st)
     = (if Props.details_ok (Wizard.values st) then 2 else 1)
  /\ Wizard.values (ExamCreation.handleNext st) = Wizard.values st
  /\ Wizard.values (ExamEditForm.handleNext st) = Wizard.values st.
Proof.
  intros Hs. unfold ExamCreation.handleNext, ExamEditForm.handleNext.
  rewrite !handleNext_values. repeat split.
  - apply (next_on_details _ _ _ (creation_issues (Wizard.values st))
             (creation_question_paths (Wizard.values st)) Hs).
  - apply (next_on_details _ _ _ (edit_issues (Wizard.values st))
             (edit_question_paths (Wizard.values st)) Hs).
Qed.

Lemma review_step_always_submits_witness :
  exists st : Wizard.State,
    Wizard.reachable ExamCreation.examFormSchema ExamCreation.initial st
    /\ Wizard.step st = 3
    /\ Wizard.submit ExamCreation.examFormSchema st
       = (Wizard.mkState 3 (Wizard.values st) [],
          Some (snd (ExamCreation.examFormSchema [] (Wizard.values st)))).
Proof.
  pose proof (Wizard.r_init ExamCreation.examFormSchema ExamCreation.initial) as R0.
  input R0 (Wizard.ChangeTitle "Algebra") R1.
  input R1 (Wizard.ChangeSubject "Mathematics") R2.
  input R2 (Wizard.ChangeInstructions "Grade strictly") R3.
  press_next R3 R4.
  input R4 (Wizard.ChangeQuestionText 0 "Solve x + 1 = 2") R5.
  input R5 (Wizard.ChangeIdealAnswer 0 "x = 1") R6.
  press_next R6 R7.
  eexists. split; [exact R7|]. split; [reflexivity|].
  exact (proj1 (proj2 (review_step_always_submits ExamCreation.examFormSchema
                         ExamCreation.initial _ eq_refl R7 eq_refl))).
Defined.


(** The empty form stays on step 1; with the details typed in and a mark
    that is no number, Next still leads to step 2. *)
Lemma next_on_step_1_checks_details_witness :
  Wizard.step ExamCreation.initial = 1
  /\ Wizard.step (ExamCreation.handleNext ExamCreation.initial) = 1
  /\ Wizard.step
       (ExamCreation.handleNext
          (Wizard.mkState 1 (Spec.with_mark (Js.VString "abc")) [])) = 2.
Proof.
  split; [reflexivity|]. split.
  - exact (proj1 (next_on_step_1_checks_details ExamCreation.initial eq_refl)).
  - exact (proj1 (next_on_step_1_checks_details
                    (Wizard.mkState 1 (Spec.with_mark (Js.VString "abc")) [])
                    eq_refl)).
Defined.

(* ===================================================================== *)
(** ** The field array *)
(* ===================================================================== *)

Lemma remove_at_app_last {A : Type} (l : list A) (x : A) :
  Rhf.remove_at (List.length l) (l ++ [x]) = l.
Proof.
  unfold Rhf.remove_at.
  assert (Hs : skipn (S (List.length l)) (l ++ [x]) = []).
  { apply skipn_all2. rewrite length_app. simpl. lia. }
  rewrite Hs, firstn_app, firstn_all, Nat.sub_diag. simpl.
  now rewrite !app_nil_r.
Qed.

Lemma remove_at_beyond {A : Type} (i : nat) (l : list A) :
  (List.length l <= i)%nat -> Rhf.remove_at i l = l.
Proof.
  intros H. unfold Rhf.remove_at.
  rewrite firstn_all2 by exact H.
  rewrite skipn_all2 by lia. apply app_nil_r.
Qed.

Lemma remove_at_length {A : Type} (i : nat) (l : list A) :
  (i < List.length l)%nat ->
  S (List.length (Rhf.remove_at i l)) = List.length l.
Proof.
  intros H. unfold Rhf.remove_at.
  rewrite length_app, length_firstn, length_skipn. lia.
Qed.

Lemma remove_at_nth {A : Type} (i j : nat) (l : list A) :
  nth_error (Rhf.remove_at i l) j
  = if Nat.ltb j i then nth_error l j else nth_error l (S j).
Proof.
  unfold Rhf.remove_at.
  destruct (Nat.ltb j i) eqn:E.
  - apply Nat.ltb_lt in E.
    destruct (Nat.le_gt_cases (List.length l) j) as [Hl|Hl].
    + rewrite (proj2 (nth_error_None l j) Hl).
      apply nth_error_None. rewrite length_app, length_firstn, length_skipn. lia.
    + rewrite nth_error_app1 by (rewrite length_firstn; lia).
      rewrite nth_error_firstn.
      now rewrite (proj2 (Nat.ltb_lt j i) E).
  - apply Nat.ltb_ge in E.
    destruct (Nat.le_gt_cases (List.length l) i) as [Hl|Hl].
    + rewrite firstn_all2, skipn_all2, app_nil_r by lia.
      rewrite (proj2 (nth_error_None l j)), (proj2 (nth_error_None l (S j))) by lia.
      reflexivity.
    + rewrite nth_error_app2 by (rewrite length_firstn; lia).
      rewrite length_firstn, nth_error_skipn. f_equal. lia.
Qed.

(** X5.  On the field array, [remove] undoes [append] when it is given the
    position of the appended question; a position beyond the end removes
    nothing; a position within the list shortens it by exactly one, keeps the
    questions before it in place and moves the later ones up by one; the
    other form values are never touched. *)
Theorem field_array_remove (v : FormValues.t) (q : FormQuestion.t) (i : nat) :
  Rhf.remove (List.length (FormValues.questions v)) (Rhf.append q v) = v
  /\ ((List.length (FormValues.questions v) <= i)%nat -> Rhf.remove i v = v)
  /\ ((i < List.length (FormValues.questions v))%nat ->
      S (List.length (FormValues.questions (Rhf.remove i v)))
      = List.length (FormValues.questions v))
  /\ (forall j : nat,
        nth_error (FormValues.questions (Rhf.remove i v)) j
        = if Nat.ltb j i then nth_error (FormValues.questions v) j
          else nth_error (FormValues.questions v) (S j))
  /\ FormValues.title (Rhf.remove i v) = FormValues.title v
  /\ FormValues.subject (Rhf.remove i v) = FormValues.subject v
  /\ FormValues.instructions (Rhf.remove i v) = FormValues.instructions v.
Proof.
  destruct v as [t s ins qs]. unfold Rhf.remove, Rhf.append.
  cbn [FormValues.title FormValues.subject FormValues.instructions
       FormValues.questions].
  split; [now rewrite remove_at_app_last|].
  split; [intros H; now rewrite remove_at_beyond|].
  split; [apply remove_at_length|].
  split; [intros j; apply remove_at_nth|].
  repeat split.
Qed.

Lemma field_array_remove_witness :
  (1 <= 5)%nat
  /\ Rhf.remove 5 ExamCreation.defaultValues = ExamCreation.defaultValues
  /\ FormValues.questions (Rhf.remove 0 ExamCreation.defaultValues) = [].
Proof.
  split; [lia|]. split.
  - refine (proj1 (proj2 (field_array_remove ExamCreation.defaultValues
                            (FormQuestion.mk None "" "" None Js.VNull None None) 5)) _).
    simpl. lia.
  - reflexivity.
Defined.

(* ===================================================================== *)
(** ** Ids as text: tags and URLs tell exams apart *)
(* ===================================================================== *)

Lemma to_int_proper (z : Z) :
  Z.to_int z <> Decimal.Pos Decimal.Nil /\ Z.to_int z <> Decimal.Neg Decimal.Nil.
Proof.
  destruct z as [|p|p]; simpl; split; try discriminate;
    intros H; injection H as H; now apply DecimalPos.Unsigned.to_uint_nonnil in H.
Qed.

Lemma number_to_string_not_NaN (z : Z) :
  Js.number_to_string (Js.Num z) <> "NaN".
Proof.
  unfold Js.number_to_string.
  destruct (Z.to_int z) as [d|d]; [destruct d|]; discriminate.
Qed.

(** Different numbers are written differently. *)
Lemma number_to_string_inj (a b : Js.number) :
  Js.number_to_string a = Js.number_to_string b -> a = b.
Proof.
  destruct a as [x|], b as [y|]; intros H.
  - f_equal. apply DecimalZ.to_int_inj.
    unfold Js.number_to_string in H.
    apply (f_equal NilZero.int_of_string) in H.
    destruct (to_int_proper x) as [Hx1 Hx2], (to_int_proper y) as [Hy1 Hy2].
    rewrite !NilZero.isi in H by assumption. now injection H.
  - now apply number_to_string_not_NaN in H.
  - symmetry in H. now apply number_to_string_not_NaN in H.
  - reflexivity.
Qed.

Lemma number_to_string_eqb (a b : Js.number) :
  String.eqb (Js.number_to_string a) (Js.number_to_string b) = true <-> a = b.
Proof.
  rewrite String.eqb_eq. split; [apply number_to_string_inj | now intros ->].
Qed.

Lemma exam_tag_covered_by_update (i j : Js.number) (d : ExamFormData.t) :
  ExamApi.covers (ExamApi.mutation_invalidatesTags (ExamApi.UpdateExam i d))
    (Spec.exam_tag j) = true <-> i = j.
Proof.
  unfold ExamApi.covers, Spec.exam_tag.
  cbn [ExamApi.mutation_invalidatesTags ExamApi.updateExam.invalidatesTags
       map ExamApi.expandTagDescription existsb].
  unfold ExamApi.tag_matches.
  cbn [ExamApi.type ExamApi.id ExamApi.tag_id_key].
  rewrite number_key_not_LIST, String.eqb_refl.
  cbn [andb orb]. rewrite orb_false_r. apply number_to_string_eqb.
Qed.

(** X6.  For the cached result of the query of one exam [j]: creating an
    exam always invalidates it; updating exam [i] invalidates it exactly when
    [i] is [j]; deleting an exam and uploading a PDF never do.  The cached
    list is not invalidated by an upload either. *)
Theorem exam_entry_invalidated_exactly (j : Js.number)
    (result : option (list Exam.t)) :
  (forall d,
     ExamApi.is_invalidated
       (ExamApi.mutation_invalidatesTags (ExamApi.CreateExam d))
       (ExamApi.mkEntry (ExamApi.GetExamById j) result) = true)
  /\ (forall i d,
        ExamApi.is_invalidated
          (ExamApi.mutation_invalidatesTags (ExamApi.UpdateExam i d))
          (ExamApi.mkEntry (ExamApi.GetExamById j) result) = true
        <-> i = j)
  /\ (forall i,
        ExamApi.is_invalidated
          (ExamApi.mutation_invalidatesTags (ExamApi.DeleteExam i))
          (ExamApi.mkEntry (ExamApi.GetExamById j) result) = false)
  /\ (forall fd q,
        ExamApi.is_invalidated
          (ExamApi.mutation_invalidatesTags (ExamApi.UploadPdf fd))
          (ExamApi.mkEntry q result) = false).
Proof.
  split; [reflexivity|].
  split.
  { intros i d. unfold ExamApi.is_invalidated.
    change (ExamApi.entry_tags (ExamApi.mkEntry (ExamApi.GetExamById j) result))
      with [Spec.exam_tag j].
    cbn [existsb]. rewrite orb_false_r. apply exam_tag_covered_by_update. }
  split.
  { intros i. unfold ExamApi.is_invalidated.
    change (ExamApi.entry_tags (ExamApi.mkEntry (ExamApi.GetExamById j) result))
      with [Spec.exam_tag j].
    cbn [existsb]. rewrite orb_false_r.
    unfold ExamApi.covers, Spec.exam_tag.
    cbn [ExamApi.mutation_invalidatesTags ExamApi.deleteExam.invalidatesTags
         map ExamApi.expandTagDescription existsb].
    unfold ExamApi.tag_matches.
    cbn [ExamApi.type ExamApi.id ExamApi.tag_id_key].
    now rewrite number_key_not_LIST. }
  intros fd q. unfold ExamApi.is_invalidated, ExamApi.entry_tags,
    ExamApi.query_providesTags.
  apply not_true_iff_false. intros H.
  apply existsb_exists in H as (t & Ht & Hc).
  assert (Hty : ExamApi.type t = "Exam").
  { destruct q as [|k]; cbn in Ht.
    - destruct result as [exams|]; cbn in Ht.
      + rewrite map_app, in_app_iff, map_map in Ht. destruct Ht as [Ht|Ht].
        * apply in_map_iff in Ht as (e & <- & _). reflexivity.
        * destruct Ht as [<-|[]]. reflexivity.
      + destruct Ht as [<-|[]]. reflexivity.
    - destruct Ht as [<-|[]]. reflexivity. }
  unfold ExamApi.covers in Hc. cbn in Hc. rewrite orb_false_r in Hc.
  unfold ExamApi.tag_matches in Hc. cbn in Hc. rewrite Hty in Hc.
  discriminate Hc.
Qed.

Lemma exam_entry_invalidated_exactly_witness :
  Js.Num 7 = Js.Num 7
  /\ ExamApi.is_invalidated
       (ExamApi.mutation_invalidatesTags
          (ExamApi.UpdateExam (Js.Num 7) (Spec.exam_fields Spec.sample_exam)))
       (ExamApi.mkEntry (ExamApi.GetExamById (Js.Num 7)) None) = true.
Proof.
  split; [reflexivity|].
  exact (proj2 (proj1 (proj2 (exam_entry_invalidated_exactly (Js.Num 7) None))
                  (Js.Num 7) (Spec.exam_fields Spec.sample_exam)) eq_refl).
Defined.

Lemma append_slash_inj (s t : string) :
  (s ++ "/")%string = (t ++ "/")%string -> s = t.
Proof.
  revert t. induction s as [|c s IH]; intros [|c' t] H; simpl in H.
  - reflexivity.
  - injection H as _ H. destruct t; discriminate H.
  - injection H as _ H. destruct s; discriminate H.
  - injection H as -> H. f_equal. now apply IH.
Qed.

Lemma number_to_string_not_create (n : Js.number) :
  Js.number_to_string n <> "create".
Proof.
  destruct n as [z|]; [|discriminate].
  unfold Js.number_to_string.
  destruct (Z.to_int z) as [d|d]; [destruct d|]; discriminate.
Qed.

(** X7.  The requests that name an exam go to one URL per exam: reading,
    updating and deleting exam [i] use the same URL with the methods GET, PUT
    and DELETE, two different ids never share a URL, and no id leads to the
    URL of the creation endpoint or of the list. *)
Theorem exam_urls_tell_exams_apart (i j : Js.number) (d d' : ExamFormData.t) :
  ExamApi.url (ExamApi.updateExam.query i d) = ExamApi.url (ExamApi.getExamById.query i)
  /\ ExamApi.url (ExamApi.deleteExam.query i) = ExamApi.url (ExamApi.getExamById.query i)
  /\ (ExamApi.method (ExamApi.getExamById.query i),
      ExamApi.method (ExamApi.updateExam.query i d),
      ExamApi.method (ExamApi.deleteExam.query i))
     = (ExamApi.GET, ExamApi.PUT, ExamApi.DELETE)
  /\ (ExamApi.url (ExamApi.getExamById.query i)
      = ExamApi.url (ExamApi.getExamById.query j) -> i = j)
  /\ ExamApi.url (ExamApi.getExamById.query i)
     <> ExamApi.url (ExamApi.createExam.query d')
  /\ ExamApi.url (ExamApi.getExamById.query i) <> ExamApi.url ExamApi.getExams.query.
Proof.
  split; [reflexivity|]. split; [reflexivity|]. split; [reflexivity|].
  cbn [ExamApi.url ExamApi.getExamById.query ExamApi.createExam.query
       ExamApi.getExams.query].
  split; [|split].
  - intros H. simpl in H. injection H as H.
    apply append_slash_inj in H. now apply number_to_string_inj.
  - intros H. simpl in H. injection H as H.
    change "create/" with ("create" ++ "/")%string in H.
    apply append_slash_inj in H. now apply number_to_string_not_create in H.
  - intros H. simpl in H. injection H as H.
    destruct (Js.number_to_string i); discriminate H.
Qed.

Lemma exam_urls_tell_exams_apart_witness :
  ExamApi.url (ExamApi.getExamById.query (Js.Num 7))
  = ExamApi.url (ExamApi.getExamById.query (Js.Num 7))
  /\ Js.Num 7 = Js.Num 7.
Proof.
  split; [reflexivity|].
  exact (proj1 (proj2 (proj2 (proj2
           (exam_urls_tell_exams_apart (Js.Num 7) (Js.Num 7)
              (Spec.exam_fields Spec.sample_exam)
              (Spec.exam_fields Spec.sample_exam))))) eq_refl).
Defined.

(* ===================================================================== *)
(** ** From a card of the list to the query of its exam *)
(* ===================================================================== *)

Lemma digits_after (d : Decimal.uint) :
  forall acc : positive,
    Js.digits_from (Z.pos acc)
      (list_ascii_of_string (NilEmpty.string_of_uint d))
    = Some (Z.pos (Pos.of_uint_acc d acc)).
Proof.
  induction d; intros acc; cbn [NilEmpty.string_of_uint list_ascii_of_string
    Js.digits_from Pos.of_uint_acc]; [reflexivity|..];
  match goal with
  | |- context [Js.digit_of ?c] =>
      let v := eval vm_compute in (Js.digit_of c) in
      change (Js.digit_of c) with v
  end; cbv iota;
  rewrite <- IHd; f_equal; lia.
Qed.

Lemma digits_of_uint (d : Decimal.uint) :
  Js.digits_from 0 (list_ascii_of_string (NilEmpty.string_of_uint d))
  = Some (Z.of_N (Pos.of_uint d)).
Proof.
  induction d; cbn [NilEmpty.string_of_uint list_ascii_of_string
    Js.digits_from Pos.of_uint]; [reflexivity|..];
  match goal with
  | |- context [Js.digit_of ?c] =>
      let v := eval vm_compute in (Js.digit_of c) in
      change (Js.digit_of c) with v
  end; cbv iota; [exact IHd|..];
  match goal with
  | |- Js.digits_from ?k _ = _ =>
      let v := eval vm_compute in k in change k with v
  end; apply digits_after.
Qed.

Lemma uint_chars_printable (d : Decimal.uint) :
  Forall Props.printable (list_ascii_of_string (NilEmpty.string_of_uint d)).
Proof.
  induction d; cbn [NilEmpty.string_of_uint list_ascii_of_string];
    constructor; (reflexivity || assumption).
Qed.

Lemma trim_start_printable (l : list ascii) :
  Forall Props.printable l -> Js.trim_start l = l.
Proof.
  intros H. destruct H as [|c l Hc Hl]; [reflexivity|].
  simpl. unfold Props.printable in Hc. now rewrite Hc.
Qed.

Lemma trim_printable (l : list ascii) : Forall Props.printable l -> Js.trim l = l.
Proof.
  intros H. unfold Js.trim.
  rewrite (trim_start_printable l H).
  rewrite trim_start_printable by now apply Forall_rev.
  apply rev_involutive.
Qed.

Lemma uint_chars_head (d : Decimal.uint) :
  d <> Decimal.Nil ->
  exists c r, list_ascii_of_string (NilEmpty.string_of_uint d) = c :: r
              /\ Ascii.eqb c "+" = false /\ Ascii.eqb c "-" = false.
Proof.
  destruct d; [congruence|..]; intros _;
    cbn [NilEmpty.string_of_uint list_ascii_of_string];
    eexists; eexists; repeat split.
Qed.

(** Reading back the text of a positive number. *)
Lemma StringToNumber_of_pos (p : positive) :
  Js.StringToNumber (NilEmpty.string_of_uint (Pos.to_uint p)) = Js.Num (Z.pos p)
  /\ Js.unsigned_literal
       (list_ascii_of_string (NilEmpty.string_of_uint (Pos.to_uint p)))
     = Js.Num (Z.pos p).
Proof.
  assert (Hu : Js.unsigned_literal
       (list_ascii_of_string (NilEmpty.string_of_uint (Pos.to_uint p)))
     = Js.Num (Z.pos p)).
  { unfold Js.unsigned_literal.
    rewrite digits_of_uint, DecimalPos.Unsigned.of_to.
    destruct (uint_chars_head (Pos.to_uint p)
                (DecimalPos.Unsigned.to_uint_nonnil p)) as (c & r & -> & _).
    reflexivity. }
  split; [|exact Hu].
  unfold Js.StringToNumber.
  rewrite trim_printable by apply uint_chars_printable.
  destruct (uint_chars_head (Pos.to_uint p)
              (DecimalPos.Unsigned.to_uint_nonnil p)) as (c & r & E & Hp & Hm).
  rewrite E in *. now rewrite Hp, Hm.
Qed.

(** [Number(`${z}`)] is [z] again. *)
Lemma Number_of_number_to_string (z : Z) :
  Js.Number (Js.VString (Js.number_to_string (Js.Num z))) = Js.Num z.
Proof.
  cbn [Js.Number Js.number_to_string].
  destruct z as [|p|p]; [reflexivity|..]; cbn [Z.to_int NilZero.string_of_int].
  - unfold NilZero.string_of_uint.
    pose proof (DecimalPos.Unsigned.to_uint_nonnil p) as Hn.
    destruct (Pos.to_uint p) eqn:E; [congruence|..]; rewrite <- E;
      apply StringToNumber_of_pos.
  - assert (Hs : NilZero.string_of_uint (Pos.to_uint p)
                 = NilEmpty.string_of_uint (Pos.to_uint p)).
    { unfold NilZero.string_of_uint.
      pose proof (DecimalPos.Unsigned.to_uint_nonnil p) as Hn.
      destruct (Pos.to_uint p); [congruence|..]; reflexivity. }
    rewrite Hs. unfold Js.StringToNumber.
    cbn [list_ascii_of_string].
    rewrite trim_printable
      by (constructor; [reflexivity | apply uint_chars_printable]).
    change (Ascii.eqb "-" "+") with false.
    change (Ascii.eqb "-" "-") with true. cbv iota.
    rewrite (proj2 (StringToNumber_of_pos p)). reflexivity.
Qed.

(** X8.  The link of a card in the exam list leads to the exam it shows: for
    an exam whose id is an integer other than 0, the route segment of the
    link, read back by the detail page and by the edit page, gives the same
    id, and both pages query exactly that exam; for an exam with id 0 both
    pages skip the query. *)
Theorem list_link_opens_its_exam (exam : Exam.t) (z : Z) :
  Exam.id exam = Js.Num z ->
  ExamDetailPage.id (ParamString (ExamList.segment exam)) = Exam.id exam
  /\ EditExamPage.examId (ParamString (ExamList.segment exam)) = Exam.id exam
  /\ ExamDetailPage.query (ParamString (ExamList.segment exam))
     = (if z =? 0 then None else Some (ExamApi.getExamById.query (Exam.id exam)))
  /\ EditExamPage.query (ParamString (ExamList.segment exam))
     = (if z =? 0 then None else Some (ExamApi.getExamById.query (Exam.id exam))).
Proof.
  intros Hid.
  assert (Hn : param_to_number (ParamString (ExamList.segment exam)) = Js.Num z).
  { unfold ExamList.segment, param_to_number. rewrite Hid.
    apply Number_of_number_to_string. }
  unfold ExamDetailPage.query, EditExamPage.query, ExamDetailPage.id,
    EditExamPage.examId, useGetExamByIdQuery.
  rewrite Hn, Hid. cbn [Js.not_number].
  repeat split; destruct (z =? 0); reflexivity.
Qed.

Lemma list_link_opens_its_exam_witness :
  Exam.id Spec.sample_exam = Js.Num 7
  /\ ExamDetailPage.query (ParamString (ExamList.segment Spec.sample_exam))
     = Some (ExamApi.getExamById.query (Js.Num 7)).
Proof.
  split; [reflexivity|].
  exact (proj1 (proj2 (proj2
           (list_link_opens_its_exam Spec.sample_exam 7 eq_refl)))).
Defined.

(* ===================================================================== *)
(** ** What the detail page and the edit page show *)
(* ===================================================================== *)

(** X9.  Over JavaScript's numbers as they are: the detail page shows the
    exam exactly when the id is not falsy, nothing is loading, there is no
    error and the hook holds the exam; the edit page opens the form exactly
    when nothing is loading, there is no error and the hook holds the exam,
    whatever the id.  With a falsy id both pages skip the query and the
    detail page shows the loading skeleton whatever the hook holds; the edit
    page shows the error alert whenever the hook holds no exam and is not
    loading. *)
Theorem pages_show_loaded_exam_only
    (number : Type) (ToNumber : RouteParam -> number)
    (falsy : number -> bool) (template : number -> string)
    (p : RouteParam) (q : QueryState Exam.t) (exam : Exam.t) :
  (Pages.detail_view ToNumber falsy p q = ExamDetailView.Details exam
   <-> falsy (ToNumber p) = false
       /\ isLoading q = false /\ isError q = false /\ data q = Some exam)
  /\ (EditExamView.view q = EditExamView.EditForm exam
      <-> isLoading q = false /\ isError q = false /\ data q = Some exam)
  /\ (falsy (ToNumber p) = true ->
      Pages.detail_query ToNumber falsy template p = None
      /\ Pages.edit_query ToNumber falsy template p = None
      /\ Pages.detail_view ToNumber falsy p q = ExamDetailView.Skeleton)
  /\ (isLoading q = false -> data q = None ->
      EditExamView.view q = EditExamView.ErrorAlert).
Proof.
  split; [|split; [|split]].
  - unfold Pages.detail_view, ExamDetailView.view.
    destruct (isLoading q), (falsy (ToNumber p)), (isError q),
      (data q) as [e|]; simpl; split;
      try (intros H; discriminate H);
      try (intros (H1 & H2 & H3 & H4); discriminate).
    + intros H. injection H as ->. auto.
    + intros (_ & _ & _ & H). now injection H as ->.
  - unfold EditExamView.view.
    destruct (isLoading q), (isError q), (data q) as [e|]; simpl; split;
      try (intros H; discriminate H);
      try (intros (H1 & H2 & H3); discriminate).
    + intros H. injection H as ->. auto.
    + intros (_ & _ & H). now injection H as ->.
  - intros H.
    unfold Pages.detail_query, Pages.edit_query, Pages.detail_view,
      Pages.useGetExamByIdQuery, ExamDetailView.view.
    cbv zeta. rewrite H, orb_true_r. repeat split.
  - intros Hl Hd. unfold EditExamView.view. rewrite Hl, Hd.
    destruct (isError q); reflexivity.
Qed.

(** On the integers, with the parameter abc: the detail page shows the
    skeleton even when the hook holds an exam, and the edit page shows the
    error alert when the hook holds none. *)
Lemma pages_show_loaded_exam_only_witness :
  Js.not_number (param_to_number (ParamString "abc")) = true
  /\ Pages.detail_view param_to_number Js.not_number (ParamString "abc")
       (mkQueryState (Some Spec.sample_exam) false false)
     = ExamDetailView.Skeleton
  /\ EditExamView.view (mkQueryState (@None Exam.t) false false)
     = EditExamView.ErrorAlert.
Proof.
  split; [reflexivity|]. split.
  - exact (proj2 (proj2 (proj1 (proj2 (proj2
             (pages_show_loaded_exam_only Js.number param_to_number
                Js.not_number Js.number_to_string (ParamString "abc")
                (mkQueryState (Some Spec.sample_exam) false false)
                Spec.sample_exam))) eq_refl))).
  - exact (proj2 (proj2 (proj2
             (pages_show_loaded_exam_only Js.number param_to_number
                Js.not_number Js.number_to_string (ParamString "abc")
                (mkQueryState (@None Exam.t) false false)
                Spec.sample_exam))) eq_refl eq_refl).
Defined.

(* ===================================================================== *)
(** ** The submission page: what is selected, and the timer *)
(* ===================================================================== *)

Lemma handleFileProcessing_pdfs (file : option File.t) (st : SubmissionPage.State) :
  Props.only_pdfs st = true ->
  Props.only_pdfs (fst (SubmissionPage.handleFileProcessing file st)) = true.
Proof.
  unfold Props.only_pdfs, SubmissionPage.handleFileProcessing.
  intros H. apply andb_true_iff in H as [_ Ht].
  destruct file as [f|]; [destruct (String.eqb _ _) eqn:E|]; simpl;
    rewrite ?Ht; try reflexivity.
  unfold Props.is_pdf. now rewrite E.
Qed.

Lemma handle_pdfs (e : SubmissionPage.Event) (st : SubmissionPage.State) :
  Props.only_pdfs st = true ->
  Props.only_pdfs (fst (SubmissionPage.handle e st)) = true.
Proof.
  intros H. destruct e as [| | |files|files| |]; cbn [SubmissionPage.handle].
  - exact H.
  - exact H.
  - exact H.
  - unfold SubmissionPage.handleDrop. destruct files as [|f files]; [exact H|].
    pose proof (handleFileProcessing_pdfs (Some f)
      (SubmissionPage.mkState (SubmissionPage.selectedFile st) false
         (SubmissionPage.message st) (SubmissionPage.timers st)) H) as Hp.
    destruct (SubmissionPage.handleFileProcessing _ _) as [st2 effs]. exact Hp.
  - now apply handleFileProcessing_pdfs.
  - destruct (SubmissionPage.selectedFile st) as [f|] eqn:E; [|exact H].
    unfold SubmissionPage.handleSubmit. rewrite E.
    unfold Props.only_pdfs in *. rewrite E in H.
    apply andb_true_iff in H as [Hf Ht].
    cbn [fst SubmissionPage.selectedFile SubmissionPage.timers].
    rewrite Hf, forallb_app, Ht.
    cbn [forallb SubmissionPage.captured andb]. now rewrite Hf.
  - destruct (SubmissionPage.timers st) as [|t rest] eqn:E; [exact H|].
    unfold Props.only_pdfs in *. rewrite E in H.
    apply andb_true_iff in H as [_ Ht].
    cbn [forallb] in Ht. apply andb_true_iff in Ht as [_ Ht].
    cbn [fst SubmissionPage.timeout_callback SubmissionPage.selectedFile
         SubmissionPage.timers andb]. exact Ht.
Qed.

(** X10.  In every session of the submission page that starts from the
    initial state, whatever is dropped or chosen, the selected file, when
    there is one, is a PDF, and so is every file held by a pending timer:
    Submit PDF can only ever act on a PDF. *)
Theorem selection_is_always_pdf (events : list SubmissionPage.Event)
    (f : File.t) :
  SubmissionPage.selectedFile
    (fst (SubmissionPage.run events SubmissionPage.initial)) = Some f ->
  File.type f = "application/pdf".
Proof.
  assert (Hrun : forall evs st, Props.only_pdfs st = true ->
                 Props.only_pdfs (fst (SubmissionPage.run evs st)) = true).
  { induction evs as [|e evs IH]; intros st H; [exact H|].
    cbn [SubmissionPage.run].
    pose proof (handle_pdfs e st H) as He.
    destruct (SubmissionPage.handle e st) as [st1 effs1].
    specialize (IH st1 He).
    destruct (SubmissionPage.run evs st1) as [st2 effs2]. exact IH. }
  intros Hsel.
  pose proof (Hrun events SubmissionPage.initial eq_refl) as H.
  unfold Props.only_pdfs in H. rewrite Hsel in H.
  apply andb_true_iff in H as [H _]. now apply String.eqb_eq.
Qed.

Lemma selection_is_always_pdf_witness :
  SubmissionPage.selectedFile
    (fst (SubmissionPage.run
            [SubmissionPage.Drop [Spec.text_file];
             SubmissionPage.FileChange (Some [Spec.pdf_file])]
            SubmissionPage.initial)) = Some Spec.pdf_file
  /\ File.type Spec.pdf_file = "application/pdf".
Proof.
  split; [reflexivity|].
  exact (selection_is_always_pdf
           [SubmissionPage.Drop [Spec.text_file];
            SubmissionPage.FileChange (Some [Spec.pdf_file])]
           Spec.pdf_file eq_refl).
Defined.

Lemma pdf_is_selected (f : File.t) (st : SubmissionPage.State) :
  File.type f = "application/pdf" ->
  SubmissionPage.handleFileProcessing (Some f) st
  = (SubmissionPage.mkState (Some f) (SubmissionPage.isDragActive st)
       (Some (SubmissionPage.mkMessage SubmissionPage.success
          (SubmissionPage.quoted (File.name f) ++ " is ready for upload.")%string))
       (SubmissionPage.timers st), []).
Proof.
  intros H. apply String.eqb_eq in H.
  unfold SubmissionPage.handleFileProcessing. now rewrite H.
Qed.

(** X11.  The timer armed by Submit PDF reports the file that was selected
    when the button was pressed and clears whatever is selected when it
    fires: if a second PDF is chosen before the timer fires, firing leaves no
    file selected and the message names the first file, although the second
    one was never submitted. *)
Theorem timer_clears_later_selection (a b : File.t) :
  File.type a = "application/pdf" ->
  File.type b = "application/pdf" ->
  fst (SubmissionPage.run
         [SubmissionPage.FileChange (Some [a]); SubmissionPage.ClickSubmit;
          SubmissionPage.FileChange (Some [b])]
         SubmissionPage.initial)
  = SubmissionPage.mkState (Some b) false
      (Some (SubmissionPage.mkMessage SubmissionPage.success
         (SubmissionPage.quoted (File.name b) ++ " is ready for upload.")%string))
      [SubmissionPage.mkTimer 2000 a]
  /\ fst (SubmissionPage.run
            [SubmissionPage.FileChange (Some [a]); SubmissionPage.ClickSubmit;
             SubmissionPage.FileChange (Some [b]); SubmissionPage.TimerFires]
            SubmissionPage.initial)
     = SubmissionPage.mkState None false
         (Some (SubmissionPage.mkMessage SubmissionPage.success
            (SubmissionPage.quoted (File.name a)
             ++ " has been uploaded successfully.")%string))
         [].
Proof.
  intros Ha Hb.
  cbn [SubmissionPage.run SubmissionPage.handle].
  unfold SubmissionPage.handleFileChange.
  rewrite (pdf_is_selected a _ Ha).
  cbn [SubmissionPage.selectedFile SubmissionPage.handleSubmit
       SubmissionPage.isDragActive SubmissionPage.timers SubmissionPage.initial
       SubmissionPage.message app].
  rewrite (pdf_is_selected b _ Hb).
  cbn [SubmissionPage.selectedFile SubmissionPage.isDragActive
       SubmissionPage.timers SubmissionPage.timeout_callback
       SubmissionPage.message app fst].
  split; reflexivity.
Qed.

Lemma timer_clears_later_selection_witness :
  File.type Spec.pdf_file = "application/pdf"
  /\ SubmissionPage.selectedFile
       (fst (SubmissionPage.run
               [SubmissionPage.FileChange (Some [Spec.pdf_file]);
                SubmissionPage.ClickSubmit;
                SubmissionPage.FileChange (Some [Spec.pdf_file]);
                SubmissionPage.TimerFires]
               SubmissionPage.initial)) = None.
Proof.
  split; [reflexivity|].
  exact (f_equal SubmissionPage.selectedFile
           (proj2 (timer_clears_later_selection Spec.pdf_file Spec.pdf_file
                     eq_refl eq_refl))).
Defined.


(* ===================================================================== *)
(** ** The wizard with local state *)
(* ===================================================================== *)

Lemma truthy_spec (s : string) : LocalExamCreation.truthy s = true <-> s <> "".
Proof.
  unfold LocalExamCreation.truthy. rewrite negb_true_iff, String.eqb_neq.
  reflexivity.
Qed.

Ltac close_invariant Hd Hq :=
  first [ lia
        | solve [destruct Hd as [? ?]; [lia | assumption]]
        | solve [apply Hq; lia]
        | assumption
        | solve [intros _; assumption] ].

Ltac open_invariant :=
  unfold Props.local_invariant,
    LocalExamCreation.with_draft, LocalExamCreation.with_step,
    LocalExamCreation.removeQuestion;
  cbn [LocalExamCreation.step LocalExamCreation.examTitle
       LocalExamCreation.examSubject LocalExamCreation.questions
       LocalExamCreation.newQuestion LocalExamCreation.draft_points].

Lemma fire_keeps_invariant (e : LocalExamCreation.Event)
    (st : LocalExamCreation.State) :
  Props.local_invariant st ->
  Props.local_invariant (fst (LocalExamCreation.fire e st)).
Proof.
  intros Hinv. pose proof Hinv as (Hr & Hd & Hq).
  unfold LocalExamCreation.fire.
  destruct (LocalExamCreation.enabled st e) eqn:En; [|exact Hinv].
  destruct e; simpl in En; cbn [LocalExamCreation.handle fst];
    try (apply Z.eqb_eq in En); try exact Hinv.
  - open_invariant. repeat split; close_invariant Hd Hq.
  - open_invariant. repeat split; close_invariant Hd Hq.
  - unfold LocalExamCreation.addQuestion.
    destruct (_ && _)%bool; cbn [fst]; [|exact Hinv].
    open_invariant. repeat split; close_invariant Hd Hq.
  - apply andb_true_iff in En as [En _]. apply Z.eqb_eq in En.
    open_invariant. repeat split; close_invariant Hd Hq.
  - apply negb_true_iff, Z.eqb_neq in En.
    open_invariant; unfold JsMore.max.
    repeat split; close_invariant Hd Hq.
  - apply andb_true_iff in En as [Hlt Hc]. apply Z.ltb_lt in Hlt.
    unfold LocalExamCreation.canProceed in Hc.
    open_invariant.
    destruct (LocalExamCreation.step st =? 1) eqn:E1.
    + apply Z.eqb_eq in E1. apply andb_true_iff in Hc as [Ht Hs].
      apply truthy_spec in Ht, Hs. repeat split; close_invariant Hd Hq.
    + destruct (LocalExamCreation.step st =? 2) eqn:E2; [|discriminate Hc].
      apply Z.eqb_eq in E2. apply Nat.ltb_lt in Hc.
      assert (Hne : LocalExamCreation.questions st <> []).
      { intros Hnil. rewrite Hnil in Hc. simpl in Hc. lia. }
      repeat split; close_invariant Hd Hq.
Qed.

Lemma run_keeps_invariant (events : list LocalExamCreation.Event) :
  forall st, Props.local_invariant st ->
             Props.local_invariant (fst (LocalExamCreation.run events st)).
Proof.
  induction events as [|e events IH]; intros st H; [exact H|].
  cbn [LocalExamCreation.run].
  pose proof (fire_keeps_invariant e st H) as He.
  destruct (LocalExamCreation.fire e st) as [st1 effs1].
  specialize (IH st1 He).
  destruct (LocalExamCreation.run events st1) as [st2 effs2]. exact IH.
Qed.

Lemma initial_invariant : Props.local_invariant LocalExamCreation.initial.
Proof.
  unfold Props.local_invariant. simpl. repeat split; try lia; discriminate.
Qed.

(** X12.  In the wizard with local state, after any sequence of user events
    from the initial state the step is 1, 2 or 3, and whenever the Create
    Exam button is available the title and the subject are non-empty and
    there is at least one question. *)
Theorem local_create_needs_content (events : list LocalExamCreation.Event) :
  1 <= LocalExamCreation.step
         (fst (LocalExamCreation.run events LocalExamCreation.initial)) <= 3
  /\ (LocalExamCreation.enabled
        (fst (LocalExamCreation.run events LocalExamCreation.initial))
        LocalExamCreation.ClickCreateExam = true ->
      LocalExamCreation.examTitle
        (fst (LocalExamCreation.run events LocalExamCreation.initial)) <> ""
      /\ LocalExamCreation.examSubject
           (fst (LocalExamCreation.run events LocalExamCreation.initial)) <> ""
      /\ LocalExamCreation.questions
           (fst (LocalExamCreation.run events LocalExamCreation.initial)) <> []).
Proof.
  destruct (run_keeps_invariant events _ initial_invariant) as (Hr & Hd & Hq).
  split; [exact Hr|].
  intros En. simpl in En. apply negb_true_iff, Z.ltb_ge in En.
  assert (H3 : LocalExamCreation.step
                 (fst (LocalExamCreation.run events LocalExamCreation.initial)) = 3)
    by lia.
  destruct Hd as [Ht Hs]; [lia|]. auto.
Qed.

Lemma local_create_needs_content_witness :
  LocalExamCreation.enabled
    (fst (LocalExamCreation.run
            [LocalExamCreation.ChangeTitle "Algebra";
             LocalExamCreation.ChangeSubject "Mathematics";
             LocalExamCreation.ClickNext;
             LocalExamCreation.ChangeQuestionText "Solve x + 1 = 2";
             LocalExamCreation.ChangeAnswer "x = 1";
             LocalExamCreation.ClickAddQuestion 1700000000000;
             LocalExamCreation.ClickNext]
            LocalExamCreation.initial))
    LocalExamCreation.ClickCreateExam = true
  /\ LocalExamCreation.questions
       (fst (LocalExamCreation.run
               [LocalExamCreation.ChangeTitle "Algebra";
                LocalExamCreation.ChangeSubject "Mathematics";
                LocalExamCreation.ClickNext;
                LocalExamCreation.ChangeQuestionText "Solve x + 1 = 2";
                LocalExamCreation.ChangeAnswer "x = 1";
                LocalExamCreation.ClickAddQuestion 1700000000000;
                LocalExamCreation.ClickNext]
               LocalExamCreation.initial)) <> [].
Proof.
  split; [reflexivity|].
  exact (proj2 (proj2 (proj2
    (local_create_needs_content
       [LocalExamCreation.ChangeTitle "Algebra";
        LocalExamCreation.ChangeSubject "Mathematics";
        LocalExamCreation.ClickNext;
        LocalExamCreation.ChangeQuestionText "Solve x + 1 = 2";
        LocalExamCreation.ChangeAnswer "x = 1";
        LocalExamCreation.ClickAddQuestion 1700000000000;
        LocalExamCreation.ClickNext]) eq_refl))).
Defined.

Lemma totalPoints_app (qs : list LocalExamCreation.Question)
    (q : LocalExamCreation.Question) :
  LocalExamCreation.totalPoints (qs ++ [q])
  = JsMore.add (LocalExamCreation.totalPoints qs) (LocalExamCreation.points q).
Proof. unfold LocalExamCreation.totalPoints. now rewrite fold_left_app. Qed.

Lemma filter_keeps_all {A : Type} (f : A -> bool) (l : list A) :
  (forall x, In x l -> f x = true) -> filter f l = l.
Proof.
  induction l as [|a l IH]; intros H; [reflexivity|].
  simpl. rewrite (H a (or_introl eq_refl)). f_equal.
  apply IH. intros x Hx. apply H. now right.
Qed.

(** X14.  In the wizard with local state, Add Question does nothing (no
    question, no toast, the typed text kept) while the question text or the
    ideal answer is empty.  Otherwise it appends exactly the typed question,
    with the clock reading as id, resets the inputs to empty text and 10
    points, and raises the total by the typed points; removing a question by
    the id just given, when no earlier question has that id, restores the
    list as it was. *)
Theorem local_add_question (now : Z) (st : LocalExamCreation.State) :
  (LocalExamCreation.draft_text (LocalExamCreation.newQuestion st) = ""
   \/ LocalExamCreation.draft_answer (LocalExamCreation.newQuestion st) = "" ->
   LocalExamCreation.addQuestion now st = (st, []))
  /\ (LocalExamCreation.draft_text (LocalExamCreation.newQuestion st) <> "" ->
      LocalExamCreation.draft_answer (LocalExamCreation.newQuestion st) <> "" ->
      LocalExamCreation.questions (fst (LocalExamCreation.addQuestion now st))
      = LocalExamCreation.questions st
        ++ [LocalExamCreation.mkQuestion (Js.number_to_string (Js.Num now))
              (LocalExamCreation.draft_text (LocalExamCreation.newQuestion st))
              (LocalExamCreation.draft_points (LocalExamCreation.newQuestion st))
              (LocalExamCreation.draft_answer (LocalExamCreation.newQuestion st))]
      /\ LocalExamCreation.newQuestion (fst (LocalExamCreation.addQuestion now st))
         = LocalExamCreation.mkDraft "" (Js.Num 10) ""
      /\ LocalExamCreation.totalPoints
           (LocalExamCreation.questions (fst (LocalExamCreation.addQuestion now st)))
         = JsMore.add
             (LocalExamCreation.totalPoints (LocalExamCreation.questions st))
             (LocalExamCreation.draft_points (LocalExamCreation.newQuestion st))
      /\ ((forall q, In q (LocalExamCreation.questions st) ->
                     LocalExamCreation.id q <> Js.number_to_string (Js.Num now)) ->
          LocalExamCreation.questions
            (LocalExamCreation.removeQuestion (Js.number_to_string (Js.Num now))
               (fst (LocalExamCreation.addQuestion now st)))
          = LocalExamCreation.questions st)).
Proof.
  unfold LocalExamCreation.addQuestion. split.
  - intros [H|H]; rewrite H; [reflexivity|].
    now rewrite andb_false_r.
  - intros Ht Ha. apply truthy_spec in Ht, Ha. rewrite Ht, Ha.
    cbn [andb fst LocalExamCreation.questions LocalExamCreation.newQuestion].
    split; [reflexivity|]. split; [reflexivity|].
    split; [apply totalPoints_app|].
    intros Hfresh. unfold LocalExamCreation.removeQuestion.
    cbn [LocalExamCreation.questions].
    rewrite filter_app. cbn [filter LocalExamCreation.id].
    rewrite String.eqb_refl. cbn [negb]. rewrite app_nil_r.
    apply filter_keeps_all. intros q Hq.
    apply negb_true_iff, String.eqb_neq. now apply Hfresh.
Qed.

Lemma local_add_question_witness :
  LocalExamCreation.draft_text
    (LocalExamCreation.newQuestion LocalExamCreation.initial) = ""
  /\ LocalExamCreation.addQuestion 1700000000000 LocalExamCreation.initial
     = (LocalExamCreation.initial, []).
Proof.
  split; [reflexivity|].
  exact (proj1 (local_add_question 1700000000000 LocalExamCreation.initial)
           (or_introl eq_refl)).
Defined.

Lemma filter_one_out {A : Type} (key : A -> string) (k : string) (l : list A) :
  NoDup (map key l) ->
  existsb (fun x => String.eqb (key x) k) l = true ->
  S (List.length (filter (fun x => negb (String.eqb (key x) k)) l))
  = List.length l.
Proof.
  induction l as [|a l IH]; intros Hnd Hex; [discriminate Hex|].
  cbn [map] in Hnd. apply NoDup_cons_iff in Hnd as [Hnotin Hnd].
  cbn [existsb filter] in *.
  destruct (String.eqb (key a) k) eqn:E; cbn [negb].
  - apply String.eqb_eq in E. cbn [List.length]. f_equal.
    f_equal. apply filter_keeps_all. intros x Hx.
    apply negb_true_iff, String.eqb_neq. intros Hk.
    apply Hnotin. rewrite E, <- Hk. now apply in_map.
  - cbn [List.length]. f_equal. now apply IH.
Qed.

(** X15.  In the wizard with local state, removing by id removes every
    question that has the id and no other (questions added in the same
    millisecond share an id and go together); when the ids of the listed
    questions are all different and one of them is the given id, the list
    gets shorter by exactly one; step, title, subject, instructions and the
    question being typed stay as they are. *)
Theorem local_remove_question (id0 : string) (st : LocalExamCreation.State) :
  (forall q,
     In q (LocalExamCreation.questions (LocalExamCreation.removeQuestion id0 st))
     <-> In q (LocalExamCreation.questions st) /\ LocalExamCreation.id q <> id0)
  /\ (NoDup (map LocalExamCreation.id (LocalExamCreation.questions st)) ->
      LocalExamCreation.enabled
        (LocalExamCreation.with_step 2 st)
        (LocalExamCreation.ClickRemoveQuestion id0) = true ->
      S (List.length
           (LocalExamCreation.questions (LocalExamCreation.removeQuestion id0 st)))
      = List.length (LocalExamCreation.questions st))
  /\ LocalExamCreation.removeQuestion id0 st
     = LocalExamCreation.mkState (LocalExamCreation.step st)
         (LocalExamCreation.examTitle st) (LocalExamCreation.examSubject st)
         (LocalExamCreation.examInstructions st)
         (LocalExamCreation.questions (LocalExamCreation.removeQuestion id0 st))
         (LocalExamCreation.newQuestion st).
Proof.
  split; [|split; [|reflexivity]].
  - intros q. unfold LocalExamCreation.removeQuestion.
    cbn [LocalExamCreation.questions].
    rewrite filter_In, negb_true_iff, String.eqb_neq. reflexivity.
  - intros Hnd En. simpl in En.
    unfold LocalExamCreation.removeQuestion. cbn [LocalExamCreation.questions].
    now apply filter_one_out.
Qed.

Lemma local_remove_question_witness :
  NoDup (map LocalExamCreation.id
           [LocalExamCreation.mkQuestion "17" "q" (Js.Num 10) "a";
            LocalExamCreation.mkQuestion "18" "r" (Js.Num 5) "b"])
  /\ List.length
       (LocalExamCreation.questions
          (LocalExamCreation.removeQuestion "17"
             (LocalExamCreation.mkState 2 "Algebra" "Mathematics" ""
                [LocalExamCreation.mkQuestion "17" "q" (Js.Num 10) "a";
                 LocalExamCreation.mkQuestion "18" "r" (Js.Num 5) "b"]
                (LocalExamCreation.mkDraft "" (Js.Num 10) "")))) = 1%nat.
Proof.
  assert (H : NoDup (map LocalExamCreation.id
           [LocalExamCreation.mkQuestion "17" "q" (Js.Num 10) "a";
            LocalExamCreation.mkQuestion "18" "r" (Js.Num 5) "b"])).
  { simpl. repeat constructor; simpl; intuition discriminate. }
  split; [exact H|].
  apply eq_add_S.
  exact (proj1 (proj2
    (local_remove_question "17"
       (LocalExamCreation.mkState 2 "Algebra" "Mathematics" ""
          [LocalExamCreation.mkQuestion "17" "q" (Js.Num 10) "a";
           LocalExamCreation.mkQuestion "18" "r" (Js.Num 5) "b"]
          (LocalExamCreation.mkDraft "" (Js.Num 10) "")))) H eq_refl).
Defined.

(* ===================================================================== *)
(** ** The dashboard's progress bar *)
(* ===================================================================== *)

Lemma dashboard_handle_keeps (e : ExamDashboard.Event) (st : ExamDashboard.State) :
  0 <= ExamDashboard.uploadProgress st <= 100 ->
  Z.divide 10 (ExamDashboard.uploadProgress st) ->
  (ExamDashboard.processing st = true -> ExamDashboard.intervals st <> []) ->
  0 <= ExamDashboard.uploadProgress (fst (ExamDashboard.handle e st)) <= 100
  /\ Z.divide 10 (ExamDashboard.uploadProgress (fst (ExamDashboard.handle e st)))
  /\ (ExamDashboard.processing (fst (ExamDashboard.handle e st)) = true ->
      ExamDashboard.intervals (fst (ExamDashboard.handle e st)) <> []).
Proof.
  intros Hr Hd Hp. destruct e as [|i|]; cbn [ExamDashboard.handle].
  - simpl. split; [lia|]. split; [exists 0; lia|].
    intros _ H. now apply app_eq_nil in H as [_ H].
  - destruct (existsb (Nat.eqb i) (ExamDashboard.intervals st)); [|auto].
    unfold ExamDashboard.tick.
    destruct (100 <=? ExamDashboard.uploadProgress st) eqn:E; simpl.
    + split; [lia|]. split; [exists 10; lia | discriminate].
    + apply Z.leb_gt in E. destruct Hd as [k Hk].
      split; [lia|]. split; [exists (k + 1); lia | exact Hp].
  - auto.
Qed.

Lemma dashboard_ticks (n : nat) :
  forall p : Z,
    p + 10 * Z.of_nat n <= 100 ->
    ExamDashboard.run (repeat (ExamDashboard.Tick 0) n)
      (ExamDashboard.mkState p true [0%nat] 1)
    = (ExamDashboard.mkState (p + 10 * Z.of_nat n) true [0%nat] 1, []).
Proof.
  induction n as [|n IH]; intros p H.
  - replace (p + 10 * Z.of_nat 0) with p by lia. reflexivity.
  - cbn [repeat ExamDashboard.run ExamDashboard.handle existsb
         ExamDashboard.intervals Nat.eqb orb].
    unfold ExamDashboard.tick. cbn [ExamDashboard.uploadProgress].
    assert (E : (100 <=? p) = false) by (apply Z.leb_gt; lia).
    rewrite E. cbn [ExamDashboard.processing ExamDashboard.intervals
                    ExamDashboard.fresh].
    rewrite IH by lia. cbn [app].
    replace (p + 10 + 10 * Z.of_nat n) with (p + 10 * Z.of_nat (S n)) by lia.
    reflexivity.
Qed.

(** X16.  On the dashboard the upload progress is always a multiple of 10
    between 0 and 100, and while processing is shown some interval is still
    running, whatever files are chosen and whichever intervals tick.  A single
    upload shows [10 * n] after [n] ticks for [n] up to 10 and finishes on the
    eleventh tick: progress 100, processing over, the interval cleared, one
    "Upload complete" toast. *)
Theorem dashboard_progress (events : list ExamDashboard.Event) (n : nat) :
  (0 <= ExamDashboard.uploadProgress
          (fst (ExamDashboard.run events ExamDashboard.initial)) <= 100
   /\ Z.divide 10 (ExamDashboard.uploadProgress
             (fst (ExamDashboard.run events ExamDashboard.initial)))
   /\ (ExamDashboard.processing
         (fst (ExamDashboard.run events ExamDashboard.initial)) = true ->
       ExamDashboard.intervals
         (fst (ExamDashboard.run events ExamDashboard.initial)) <> []))
  /\ ((n <= 10)%nat ->
      ExamDashboard.run
        (ExamDashboard.ChooseFile :: repeat (ExamDashboard.Tick 0) n)
        ExamDashboard.initial
      = (ExamDashboard.mkState (10 * Z.of_nat n) true [0%nat] 1, []))
  /\ ExamDashboard.run
       (ExamDashboard.ChooseFile :: repeat (ExamDashboard.Tick 0) 11)
       ExamDashboard.initial
     = (ExamDashboard.mkState 100 false [] 1,
        [ExamDashboard.Toast "Upload complete"
           "Answer sheet uploaded and processing started."]).
Proof.
  split; [|split; [|reflexivity]].
  - assert (Hrun : forall evs st,
      0 <= ExamDashboard.uploadProgress st <= 100 ->
      Z.divide 10 (ExamDashboard.uploadProgress st) ->
      (ExamDashboard.processing st = true -> ExamDashboard.intervals st <> []) ->
      0 <= ExamDashboard.uploadProgress (fst (ExamDashboard.run evs st)) <= 100
      /\ Z.divide 10 (ExamDashboard.uploadProgress (fst (ExamDashboard.run evs st)))
      /\ (ExamDashboard.processing (fst (ExamDashboard.run evs st)) = true ->
          ExamDashboard.intervals (fst (ExamDashboard.run evs st)) <> [])).
    { induction evs as [|e evs IH]; intros st Hr Hd Hp; [auto|].
      cbn [ExamDashboard.run].
      pose proof (dashboard_handle_keeps e st Hr Hd Hp) as (Hr1 & Hd1 & Hp1).
      destruct (ExamDashboard.handle e st) as [st1 effs1].
      specialize (IH st1 Hr1 Hd1 Hp1).
      destruct (ExamDashboard.run evs st1) as [st2 effs2]. exact IH. }
    apply Hrun; simpl; [lia | exists 0; lia | discriminate].
  - intros Hn.
    cbn [ExamDashboard.run ExamDashboard.handle ExamDashboard.handleFileUpload
         ExamDashboard.initial ExamDashboard.intervals ExamDashboard.fresh app].
    rewrite dashboard_ticks by lia. reflexivity.
Qed.

Lemma dashboard_progress_witness :
  (3 <= 10)%nat
  /\ ExamDashboard.run
       (ExamDashboard.ChooseFile :: repeat (ExamDashboard.Tick 0) 3)
       ExamDashboard.initial
     = (ExamDashboard.mkState 30 true [0%nat] 1, []).
Proof.
  assert (H : (3 <= 10)%nat) by lia.
  split; [exact H|].
  exact (proj1 (proj2 (dashboard_progress [] 3)) H).
Defined.
